(** * MatchEngine TypeScript SDK: transport, error normalisation, configuration

    A shallow embedding of the client of [devletics/matchengine-ts-sdk]
    (the bundled [src/config.ts], [src/errors/index.ts] and [src/client.ts])
    together with the properties its specification states about it.

    Conventions of the embedding.
    - JavaScript strings are [string]s; the operations used by the client
      ([endsWith], [slice], [toLowerCase], [includes], [padStart]) only look
      for ASCII text, on which bytes and UTF-16 code units coincide.
    - The numbers the client itself handles (status codes, durations in
      milliseconds, identifiers, counts, calendar fields) are integers ([Z])
      that JavaScript holds exactly.  A number inside a decoded body is only
      ever printed or tested for truthiness, and is given by the text
      JavaScript prints for it ([JsNumber]), so that fractions, exponent
      forms and infinities are all there.
    - An object the caller hands over to be sent ([externalData]) is seen by
      the client through [JSON.stringify] alone, which may throw on it
      ([CallerObject]).
    - A value decoded by [response.json()] is a [value]; [undefined] is the
      [None] of an [option].
    - [throw], a rejected promise and an exception escaping an [async]
      function are all [Throw] in [Completion]. *)

From Stdlib Require Import ZArith String Ascii List Bool Lia.
From Stdlib Require Import Numbers.DecimalString.
Import ListNotations.

Set Warnings "-register-all".

Open Scope string_scope.
Open Scope Z_scope.

(** ** Strings *)

Definition dquote : ascii := "034"%char.
Definition backslash : ascii := "092"%char.

(** [String.prototype.includes]. *)
Fixpoint includes (s sub : string) : bool :=
  String.prefix sub s ||
  match s with
  | EmptyString => false
  | String _ s' => includes s' sub
  end.

(** [String.prototype.endsWith]. *)
Fixpoint endsWith (s suffix : string) : bool :=
  String.eqb s suffix ||
  match s with
  | EmptyString => false
  | String _ s' => endsWith s' suffix
  end.

(** [String.prototype.slice(start, end)], negative indices counting from the
    end of the string. *)
Definition slice_index (len i : Z) : Z :=
  if i <? 0 then Z.max (len + i) 0 else Z.min i len.

Definition slice (s : string) (start end_ : Z) : string :=
  let len := Z.of_nat (String.length s) in
  let from := slice_index len start in
  let to := slice_index len end_ in
  String.substring (Z.to_nat from) (Z.to_nat (to - from)) s.

Definition lower_ascii (c : ascii) : ascii :=
  let n := nat_of_ascii c in
  if (Nat.leb 65 n && Nat.leb n 90)%bool then ascii_of_nat (n + 32) else c.

(** [String.prototype.toLowerCase]. *)
Fixpoint toLowerCase (s : string) : string :=
  match s with
  | EmptyString => EmptyString
  | String c s' => String (lower_ascii c) (toLowerCase s')
  end.

Fixpoint repeat_char (c : ascii) (n : nat) : string :=
  match n with
  | O => EmptyString
  | S n' => String c (repeat_char c n')
  end.

(** [String.prototype.padStart(width, c)] for a one-character filler. *)
Definition padStart (s : string) (width : nat) (c : ascii) : string :=
  repeat_char c (width - String.length s) ++ s.

(** [Array.prototype.join]. *)
Fixpoint join (sep : string) (l : list string) : string :=
  match l with
  | [] => ""
  | [x] => x
  | x :: rest => x ++ sep ++ join sep rest
  end.

(** [String(n)] for an integer that JavaScript holds exactly, of magnitude
    below 2^53 (an identifier, a page number or a count passed by the
    caller, a calendar field): its decimal digits. *)
Definition Number_toString (n : Z) : string :=
  NilZero.string_of_int (Z.to_int n).

(** A JavaScript number, given by the text [String(n)] makes of it: ["7"],
    ["1.5"], ["1e+21"], ["Infinity"].  Nothing in the client computes with a
    number of a body. *)
Record JsNumber : Type := mkNumber { Number_text : string }.

(** The integer [n] as a number. *)
Definition integer (n : Z) : JsNumber := mkNumber (Number_toString n).

Coercion integer : Z >-> JsNumber.

(** [Number.isFinite(n)] *)
Definition Number_isFinite (n : JsNumber) : bool :=
  negb (String.eqb (Number_text n) "Infinity"
        || String.eqb (Number_text n) "-Infinity"
        || String.eqb (Number_text n) "NaN").

(** Truthiness of a number: all but zero (either sign prints ["0"]) and
    [NaN]. *)
Definition Number_truthy (n : JsNumber) : bool :=
  negb (String.eqb (Number_text n) "0" || String.eqb (Number_text n) "NaN").

(** ** Values decoded from JSON *)

Inductive value : Type :=
| JNull
| JBool (b : bool)
| JNumber (n : JsNumber)
| JString (s : string)
| JArray (items : list value)
| JObject (fields : list (string * value)).

(** Own-property lookup in the key/value list of an object. *)
Fixpoint own (fields : list (string * value)) (key : string) : option value :=
  match fields with
  | [] => None
  | (k, v) :: rest => if String.eqb k key then Some v else own rest key
  end.

(** Property write [o[key] = v]: an existing key keeps its position. *)
Fixpoint set_own {A : Type} (fields : list (string * A)) (key : string) (v : A)
  : list (string * A) :=
  match fields with
  | [] => [(key, v)]
  | (k, w) :: rest =>
      if String.eqb k key then (k, v) :: rest else (k, w) :: set_own rest key v
  end.

(** Object spread [{...a, ...b}]. *)
Definition spread {A : Type} (a b : list (string * A)) : list (string * A) :=
  fold_left (fun acc kv => set_own acc (fst kv) (snd kv)) b a.

Inductive JsType : Type := T_object | T_string | T_number | T_boolean.

(** The [typeof] operator; [typeof null] is ["object"]. *)
Definition typeof (v : value) : JsType :=
  match v with
  | JNull | JArray _ | JObject _ => T_object
  | JString _ => T_string
  | JNumber _ => T_number
  | JBool _ => T_boolean
  end.

Definition JsType_eqb (a b : JsType) : bool :=
  match a, b with
  | T_object, T_object | T_string, T_string
  | T_number, T_number | T_boolean, T_boolean => true
  | _, _ => false
  end.

Definition isArray (v : option value) : bool :=
  match v with
  | Some (JArray _) => true
  | _ => false
  end.

(** *** [JSON.stringify] *)

Definition hex_digit (n : nat) : ascii :=
  if Nat.ltb n 10 then ascii_of_nat (48 + n) else ascii_of_nat (87 + n).

Definition escape_char (c : ascii) : string :=
  let n := nat_of_ascii c in
  if Ascii.eqb c dquote then String backslash (String dquote "")
  else if Ascii.eqb c backslash then String backslash (String backslash "")
  else if Nat.eqb n 8 then String backslash "b"
  else if Nat.eqb n 9 then String backslash "t"
  else if Nat.eqb n 10 then String backslash "n"
  else if Nat.eqb n 12 then String backslash "f"
  else if Nat.eqb n 13 then String backslash "r"
  else if Nat.ltb n 32 then
    String backslash ("u00" ++ String (hex_digit (n / 16)) (String (hex_digit (n mod 16)) ""))
  else String c "".

Fixpoint escape (s : string) : string :=
  match s with
  | EmptyString => EmptyString
  | String c s' => escape_char c ++ escape s'
  end.

Definition quote (s : string) : string :=
  String dquote (escape s ++ String dquote "").

(** Serialisation without indentation, members in stored order.  A decoded
    value holds no function, so no [toJSON] member is ever called; a number
    that is not finite is written [null]. *)
Fixpoint JSON_stringify (v : value) : string :=
  match v with
  | JNull => "null"
  | JBool true => "true"
  | JBool false => "false"
  | JNumber n => if Number_isFinite n then Number_text n else "null"
  | JString s => quote s
  | JArray items => "[" ++ join "," (map JSON_stringify items) ++ "]"
  | JObject fields =>
      "{" ++ join "," (map (fun kv => quote (fst kv) ++ ":" ++ JSON_stringify (snd kv)) fields)
          ++ "}"
  end.

(** ** Exceptions *)

Inductive ErrorClass : Type :=
| C_MatchEngineError
| C_AuthenticationError
| C_NotFoundError
| C_ValidationError
| C_SlotNotAvailableError
| C_UserNotFoundError
| C_BookingError
| C_PaymentError.

(** An instance of [MatchEngineError] or of one of its subclasses. *)
Record SdkError : Type := mkSdkError {
  cls : ErrorClass;
  name : string;
  message : string;
  statusCode : option Z;
  responseData : option value;
  fieldErrors : option (list (string * list string))
}.

(** Anything a [throw] can carry. *)
Inductive Thrown : Type :=
| ThrowSdk (e : SdkError)
| ThrowError (ename emessage : string)
| ThrowValue (v : option value).

Inductive Completion (A : Type) : Type :=
| Normal (a : A)
| Throw (t : Thrown).

Arguments Normal {A} a.
Arguments Throw {A} t.

Definition bind {A B : Type} (m : Completion A) (f : A -> Completion B)
  : Completion B :=
  match m with
  | Normal a => f a
  | Throw t => Throw t
  end.

Notation "x <- m ;; k" := (bind m (fun x => k))
  (at level 61, m at next level, right associativity).

(** Wording of the engine's own [TypeError]s (V8's); no statement below
    depends on it. *)
Definition TypeError_read_null (prop : string) : Thrown :=
  ThrowError "TypeError" ("Cannot read properties of null (reading '" ++ prop ++ "')").

Definition TypeError_to_primitive : Thrown :=
  ThrowError "TypeError" "Cannot convert object to primitive value".

(** Property read [v.key] for a key that no prototype provides and that is
    neither an index nor [length] (the client reads [error], [detail],
    [non_field_errors] and [results]). *)
Definition get (v : value) (key : string) : Completion (option value) :=
  match v with
  | JNull => Throw (TypeError_read_null key)
  | JObject fields => Normal (own fields key)
  | _ => Normal None
  end.

(** [String(v)].  An array joins its elements with a comma, [null] elements
    printing as the empty string; an object prints as [[object Object]]
    unless an own [toString] member (never callable in decoded JSON) hides
    [Object.prototype.toString], in which case the conversion throws. *)
Fixpoint String_ (v : value) : Completion string :=
  match v with
  | JNull => Normal "null"
  | JBool true => Normal "true"
  | JBool false => Normal "false"
  | JNumber n => Normal (Number_text n)
  | JString s => Normal s
  | JArray items =>
      parts <- (fix each (l : list value) : Completion (list string) :=
                  match l with
                  | [] => Normal []
                  | x :: rest =>
                      s <- match x with
                           | JNull => Normal ""
                           | _ => String_ x
                           end ;;
                      ss <- each rest ;;
                      Normal (s :: ss)
                  end) items ;;
      Normal (join "," parts)
  | JObject fields =>
      match own fields "toString" with
      | Some _ => Throw TypeError_to_primitive
      | None => Normal "[object Object]"
      end
  end.

(** ** [src/errors/index.ts] *)

Record ErrorOptions : Type := mkErrorOptions {
  opt_statusCode : option Z;
  opt_responseData : option value
}.

Record ValidationOptions : Type := mkValidationOptions {
  opt_fieldErrors : option (list (string * list string));
  opt_validationData : option value
}.

(** [options?.field] *)
Definition optional {O A : Type} (options : option O) (field : O -> option A)
  : option A :=
  match options with
  | Some o => field o
  | None => None
  end.

(** A parameter default [message = text]. *)
Definition default_to (text : string) (message : option string) : string :=
  match message with
  | Some m => m
  | None => text
  end.

Definition MatchEngineError (message : string) (options : option ErrorOptions)
  : SdkError :=
  {| cls := C_MatchEngineError;
     name := "MatchEngineError";
     message := message;
     statusCode := optional options opt_statusCode;
     responseData := optional options opt_responseData;
     fieldErrors := None |}.

(** A subclass constructor: [super(...)] followed by [this.name = ...]. *)
Definition subclass (c : ErrorClass) (n : string) (base : SdkError) : SdkError :=
  {| cls := c;
     name := n;
     message := message base;
     statusCode := statusCode base;
     responseData := responseData base;
     fieldErrors := fieldErrors base |}.

Definition AuthenticationError (message : option string) : SdkError :=
  subclass C_AuthenticationError "AuthenticationError"
    (MatchEngineError (default_to "Invalid or expired API token" message)
       (Some (mkErrorOptions (Some 401) None))).

Definition NotFoundError (message : option string) : SdkError :=
  subclass C_NotFoundError "NotFoundError"
    (MatchEngineError (default_to "Resource not found" message)
       (Some (mkErrorOptions (Some 404) None))).

(** The assignment [this.fieldErrors = f]. *)
Definition set_fieldErrors (e : SdkError) (f : option (list (string * list string)))
  : SdkError :=
  {| cls := cls e;
     name := name e;
     message := message e;
     statusCode := statusCode e;
     responseData := responseData e;
     fieldErrors := f |}.

Definition ValidationError (message : string) (options : option ValidationOptions)
  : SdkError :=
  set_fieldErrors
    (subclass C_ValidationError "ValidationError"
       (MatchEngineError message
          (Some (mkErrorOptions (Some 400) (optional options opt_validationData)))))
    (optional options opt_fieldErrors).

Definition SlotNotAvailableError (message : option string) : SdkError :=
  subclass C_SlotNotAvailableError "SlotNotAvailableError"
    (MatchEngineError (default_to "Time slot is not available" message)
       (Some (mkErrorOptions (Some 400) None))).

Definition UserNotFoundError (message : option string) : SdkError :=
  subclass C_UserNotFoundError "UserNotFoundError"
    (MatchEngineError (default_to "User not found" message)
       (Some (mkErrorOptions (Some 404) None))).

Definition BookingError (message : string) (options : option ErrorOptions)
  : SdkError :=
  subclass C_BookingError "BookingError" (MatchEngineError message options).

Definition PaymentError (message : string) (options : option ErrorOptions)
  : SdkError :=
  subclass C_PaymentError "PaymentError" (MatchEngineError message options).

Definition ErrorClass_eqb (a b : ErrorClass) : bool :=
  match a, b with
  | C_MatchEngineError, C_MatchEngineError
  | C_AuthenticationError, C_AuthenticationError
  | C_NotFoundError, C_NotFoundError
  | C_ValidationError, C_ValidationError
  | C_SlotNotAvailableError, C_SlotNotAvailableError
  | C_UserNotFoundError, C_UserNotFoundError
  | C_BookingError, C_BookingError
  | C_PaymentError, C_PaymentError => true
  | _, _ => false
  end.

(** [t instanceof C] for a class of the SDK: every class extends
    [MatchEngineError] directly. *)
Definition instanceof (t : Thrown) (c : ErrorClass) : bool :=
  match t with
  | ThrowSdk e => ErrorClass_eqb (cls e) c || ErrorClass_eqb c C_MatchEngineError
  | _ => false
  end.

(** ** [src/config.ts] *)

Record MatchEngineConfig : Type := mkConfig {
  baseUrl : string;
  apiToken : string;
  stripePublishableKey : string;
  timeoutMs : option Z
}.

(** [Required<MatchEngineConfig>] *)
Record RequiredConfig : Type := mkRequiredConfig {
  cfg_baseUrl : string;
  cfg_apiToken : string;
  cfg_stripePublishableKey : string;
  cfg_timeoutMs : Z
}.

Definition createConfig (config : MatchEngineConfig) : RequiredConfig :=
  let baseUrl' :=
    if endsWith (baseUrl config) "/" then slice (baseUrl config) 0 (-1)
    else baseUrl config in
  {| cfg_baseUrl := baseUrl';
     cfg_apiToken := apiToken config;
     cfg_stripePublishableKey := stripePublishableKey config;
     cfg_timeoutMs := match timeoutMs config with
                      | Some ms => ms
                      | None => 30000
                      end |}.

(** ** [src/client.ts]: error normalisation *)

(** The message derived from an error body (first part of [handleError]). *)
Definition handleError_message (data : value) : Completion string :=
  error <- get data "error" ;;
  match error with
  | Some (JString s) => Normal s
  | _ =>
      detail <- get data "detail" ;;
      match detail with
      | Some (JString s) => Normal s
      | _ =>
          non_field_errors <- get data "non_field_errors" ;;
          match non_field_errors with
          | Some (JArray (first :: _)) => String_ first
          | _ =>
              if JsType_eqb (typeof data) T_object
              then Normal (JSON_stringify data)
              else Normal "Unknown error"
          end
      end
  end.

Definition handleError (statusCode : Z) (data : value) : Completion SdkError :=
  message <- handleError_message data ;;
  Normal
    (if statusCode =? 401 then AuthenticationError (Some message)
     else if statusCode =? 404 then NotFoundError (Some message)
     else if statusCode =? 400 then
       if includes (toLowerCase message) "not available"
       then SlotNotAvailableError (Some message)
       else if includes (toLowerCase message) "user"
               && includes (toLowerCase message) "not found"
       then UserNotFoundError (Some message)
       else ValidationError message (Some (mkValidationOptions None (Some data)))
     else MatchEngineError message
            (Some (mkErrorOptions (Some statusCode) (Some data)))).

(** ** The host environment

    What the platform contributes to one call: URL parsing, the network
    exchange behind [fetch], timers, the local calendar of [Date], and the
    date libraries ([luxon] when installed, [Intl.DateTimeFormat]). *)

Record FetchInit : Type := mkFetchInit {
  init_method : string;
  init_headers : list (string * string);
  init_body : option string
}.

(** A received response: its status line and what [response.json()] settles
    to, [json_ms] milliseconds after the headers. *)
Record Response : Type := mkResponse {
  status : Z;
  json_ms : Z;
  json : Completion value
}.

(** [response.ok] *)
Definition ok (r : Response) : bool := (200 <=? status r) && (status r <=? 299).

(** What the promise of [fetch] would settle to, [fetch_ms] milliseconds
    after the call, when nobody aborts it. *)
Record Exchange : Type := mkExchange {
  fetch_ms : Z;
  fetched : Completion Response
}.

(** Milliseconds from the call until the exchange has delivered its body. *)
Definition exchange_ms (x : Exchange) : Z :=
  match fetched x with
  | Normal r => fetch_ms x + json_ms r
  | Throw _ => fetch_ms x
  end.

(** A [Date], by its time value in milliseconds. *)
Definition JsDate : Type := Z.

Record Host : Type := mkHost {
  (** [new URL(text)], the query pairs appended, [toString()]; [None] when
      the constructor throws. *)
  URL_href : string -> list (string * string) -> option string;
  fetch : string -> FetchInit -> Exchange;
  (** Delay a timer really waits for a requested delay (clamping). *)
  timer_delay : Z -> Z;
  getFullYear : JsDate -> Z;
  getMonth : JsDate -> Z;
  getDate : JsDate -> Z;
  (** [DateTime.fromJSDate(date, { zone }).toISO({ suppressMilliseconds: true })];
      [None] when [require("luxon")] throws. *)
  luxon_toISO : option (JsDate -> string -> Completion (option string));
  (** [formatToParts] of the two formatters of [fallbackFormatDateTime], as
      [(type, value)] pairs. *)
  Intl_dateTimeParts : string -> JsDate -> Completion (list (string * string));
  Intl_offsetParts : string -> JsDate -> Completion (list (string * string))
}.

Inductive Effect : Type :=
| SetTimeout (delay : Z)
| Fetch (href : string) (init : FetchInit)
| AbortFetch (* controller.abort() *)
| ClearTimeout.

(** An asynchronous result with the effects performed on the way. *)
Definition Async (A : Type) : Type := (list Effect * Completion A)%type.

(** ** [src/client.ts]: the client and [request] *)

Record MatchEngineClient : Type := mkClient {
  config : RequiredConfig;
  baseApiUrl : string
}.

Definition new_MatchEngineClient (c : MatchEngineConfig) : MatchEngineClient :=
  let config := createConfig c in
  {| config := config; baseApiUrl := cfg_baseUrl config ++ "/api/v1" |}.

(** An object the caller supplies as [externalData], a
    [Record<string, unknown>], reaches the client only through
    [JSON.stringify]; it is given by what the serialiser makes of it: the
    text it writes for it ([None] when it writes nothing and leaves the
    member out), or what it throws (on a BigInt, on a cycle). *)
Definition CallerObject : Type := Completion (option string).

(** The data of a request: a value the client built, or an object literal of
    the client's whose last member is a caller's object. *)
Inductive RequestData : Type :=
| Plain (v : value)
| WithExternal (fields : list (string * value)) (key : string) (external : CallerObject).

Record RequestOptions : Type := mkRequest {
  method : string;
  path : string;
  data : option RequestData;
  queryParams : option (list (string * string));
  headers : option (list (string * string))
}.

(** Truthiness of a decoded value. *)
Definition truthy (v : value) : bool :=
  match v with
  | JNull => false
  | JBool b => b
  | JNumber n => Number_truthy n
  | JString s => negb (String.eqb s "")
  | JArray _ | JObject _ => true
  end.

Definition or_empty {A : Type} (l : option (list A)) : list A :=
  match l with
  | Some l => l
  | None => []
  end.

(** [options.data ? ... : ...]: an object is truthy. *)
Definition truthy_data (d : RequestData) : bool :=
  match d with
  | Plain v => truthy v
  | WithExternal _ _ _ => true
  end.

Definition member_text (kv : string * value) : string :=
  quote (fst kv) ++ ":" ++ JSON_stringify (snd kv).

(** [JSON.stringify(options.data)]: members in order, the caller's object
    last. *)
Definition stringify_data (d : RequestData) : Completion string :=
  match d with
  | Plain v => Normal (JSON_stringify v)
  | WithExternal fields key external =>
      text <- external ;;
      Normal ("{" ++ join "," (map member_text fields
                               ++ match text with
                                  | Some t => [quote key ++ ":" ++ t]
                                  | None => []
                                  end)
                  ++ "}")
  end.

(** [options.data ? JSON.stringify(options.data) : void 0] *)
Definition request_body (options : RequestOptions) : Completion (option string) :=
  match data options with
  | Some d =>
      if truthy_data d then text <- stringify_data d ;; Normal (Some text)
      else Normal None
  | None => Normal None
  end.

(** The [catch] block of [request], after its [clearTimeout]. *)
Definition request_catch (error : Thrown) : SdkError :=
  match error with
  | ThrowSdk e => e
  | ThrowError ename emessage =>
      if String.eqb ename "AbortError"
      then MatchEngineError "Request timeout" (Some (mkErrorOptions (Some 408) None))
      else MatchEngineError emessage None
  | ThrowValue _ => MatchEngineError "Unknown error" None
  end.

Definition AbortError : Thrown := ThrowError "AbortError" "This operation was aborted".

(** The [try] block of [request] once the timer is armed.  The timer callback
    runs, and aborts the fetch, when the delay elapses before the promise of
    [fetch] settles; [clearTimeout] follows that promise at once. *)
Definition request_try (h : Host) (timeout : Z) (href : string) (init : FetchInit)
  : Async value :=
  let x := fetch h href init in
  if timer_delay h timeout <=? fetch_ms x then
    ([Fetch href init; AbortFetch], Throw AbortError)
  else
    match fetched x with
    | Throw t => ([Fetch href init], Throw t)
    | Normal response =>
        if negb (ok response) then
          let data := match json response with
                      | Normal v => v
                      | Throw _ => JObject []
                      end in
          ([Fetch href init; ClearTimeout],
           match handleError (status response) data with
           | Normal e => Throw (ThrowSdk e)
           | Throw t => Throw t
           end)
        else ([Fetch href init; ClearTimeout], json response)
    end.

(** The URL text and the query pairs [request] hands to [new URL]. *)
Definition request_url (this : MatchEngineClient) (options : RequestOptions) : string :=
  baseApiUrl this ++ path options.

(** The second argument of [fetch], the abort signal apart.  (When the
    serialiser throws there is no call of [fetch], and the body is left
    out.) *)
Definition request_init (this : MatchEngineClient) (options : RequestOptions) : FetchInit :=
  let headers :=
    spread [("Authorization", "Token " ++ cfg_apiToken (config this));
            ("Content-Type", "application/json");
            ("Accept", "application/json")]
           (or_empty (headers options)) in
  {| init_method := method options;
     init_headers := headers;
     init_body := match request_body options with
                  | Normal body => body
                  | Throw _ => None
                  end |}.

(** [url.toString()], [None] when [new URL] throws. *)
Definition href_of (h : Host) (this : MatchEngineClient) (options : RequestOptions)
  : option string :=
  URL_href h (request_url this options) (or_empty (queryParams options)).

(** The [try] block from its start: the arguments of [fetch] are evaluated,
    the body among them, before [fetch] is called. *)
Definition request_attempt (h : Host) (this : MatchEngineClient)
  (options : RequestOptions) (href : string) : Async value :=
  match request_body options with
  | Throw error => ([], Throw error)
  | Normal _ =>
      request_try h (cfg_timeoutMs (config this)) href (request_init this options)
  end.

Definition request (h : Host) (this : MatchEngineClient) (options : RequestOptions)
  : Async value :=
  match href_of h this options with
  | None => ([], Throw (ThrowError "TypeError" "Invalid URL"))
  | Some href =>
      let timeout := cfg_timeoutMs (config this) in
      match request_attempt h this options href with
      | (effects, Normal v) => (SetTimeout timeout :: effects, Normal v)
      | (effects, Throw error) =>
          ((SetTimeout timeout :: effects ++ [ClearTimeout])%list,
           Throw (ThrowSdk (request_catch error)))
      end
  end.

(** The exchange behind the call of [fetch] that a request makes; there is
    none when the URL does not parse or the data does not serialise. *)
Definition exchange_of (h : Host) (this : MatchEngineClient) (options : RequestOptions)
  : option Exchange :=
  match href_of h this options with
  | None => None
  | Some href =>
      match request_body options with
      | Normal _ => Some (fetch h href (request_init this options))
      | Throw _ => None
      end
  end.

(** The call receives the response [r]: it gets as far as calling [fetch],
    whose promise settles to [r] before the timer fires. *)
Definition receives (h : Host) (this : MatchEngineClient) (options : RequestOptions)
  (r : Response) : Prop :=
  exists x,
    exchange_of h this options = Some x /\
    fetch_ms x < timer_delay h (cfg_timeoutMs (config this)) /\
    fetched x = Normal r.

(** ** [src/client.ts]: dates *)

Definition pad2 (s : string) : string := padStart s 2 "0"%char.

Definition formatDate (h : Host) (date : JsDate) : string :=
  let year := getFullYear h date in
  let month := pad2 (Number_toString (getMonth h date + 1)) in
  let day := pad2 (Number_toString (getDate h date)) in
  Number_toString year ++ "-" ++ month ++ "-" ++ day.

(** [parts.find((p) => p.type === type)?.value ?? fallback] *)
Fixpoint part_or (parts : list (string * string)) (type fallback : string) : string :=
  match parts with
  | [] => fallback
  | (t, v) :: rest => if String.eqb t type then v else part_or rest type fallback
  end.

Definition is_digit (c : ascii) : bool :=
  let n := nat_of_ascii c in (Nat.leb 48 n && Nat.leb n 57)%bool.

(** The longest run of digits at the head of a string, and what follows. *)
Fixpoint digits (s : string) : string * string :=
  match s with
  | String c s' =>
      if is_digit c then let (d, rest) := digits s' in (String c d, rest)
      else (EmptyString, s)
  | EmptyString => (EmptyString, EmptyString)
  end.

(** What follows the first occurrence of [GMT]. *)
Fixpoint after_GMT (s : string) : option string :=
  match s with
  | String "G" (String "M" (String "T" rest)) => Some rest
  | String _ s' => after_GMT s'
  | EmptyString => None
  end.

(** The groups of [/GMT([+-]?)(\d+)?(?::(\d+))?/] at its first match; a group
    that did not take part is [None]. *)
Definition match_offset (s : string) : option (string * option string * option string) :=
  match after_GMT s with
  | None => None
  | Some rest =>
      let (sign, rest1) :=
        match rest with
        | String "+" r => ("+", r)
        | String "-" r => ("-", r)
        | _ => ("", rest)
        end in
      let (hours, rest2) := digits rest1 in
      let minutes :=
        match rest2 with
        | String ":" r =>
            match fst (digits r) with
            | EmptyString => None
            | m => Some m
            end
        | _ => None
        end in
      Some (sign, match hours with EmptyString => None | _ => Some hours end, minutes)
  end.

(** [group || fallback] on a captured group. *)
Definition group_or (g : option string) (fallback : string) : string :=
  match g with
  | Some EmptyString | None => fallback
  | Some s => s
  end.

Definition formatOffset (offsetStr : string) : string :=
  match match_offset offsetStr with
  | Some (sign, hours, minutes) =>
      group_or (Some sign) "+" ++ pad2 (group_or hours "0") ++ ":"
        ++ pad2 (group_or minutes "0")
  | None => "+00:00"
  end.

Definition fallbackFormatDateTime (h : Host) (date : JsDate) (timezone : string)
  : Completion string :=
  parts <- Intl_dateTimeParts h timezone date ;;
  let getPart := fun type => part_or parts type "00" in
  let year := getPart "year" in
  let month := getPart "month" in
  let day := getPart "day" in
  let hour := getPart "hour" in
  let minute := getPart "minute" in
  let second := getPart "second" in
  offsetParts <- Intl_offsetParts h timezone date ;;
  let offsetStr := part_or offsetParts "timeZoneName" "+00:00" in
  Normal (year ++ "-" ++ month ++ "-" ++ day ++ "T" ++ hour ++ ":" ++ minute ++ ":"
            ++ second ++ formatOffset offsetStr).

Definition formatDateTimeWithTimezone (h : Host) (date : JsDate) (timezone : string)
  : Completion string :=
  match luxon_toISO h with
  | None => fallbackFormatDateTime h date timezone
  | Some toISO =>
      match toISO date timezone with
      | Normal (Some iso) => Normal iso
      | Normal None => fallbackFormatDateTime h date timezone
      | Throw _ => fallbackFormatDateTime h date timezone
      end
  end.

(** ** [src/client.ts]: the public operations

    An operation is a small tree: it either settles, or awaits
    [this.request(options)] and continues with whatever that call settled
    to, which is where a [try]/[catch] around the call gets its say. *)

Inductive Prog : Type :=
| Settle (c : Completion value)
| Await (options : RequestOptions) (k : Completion value -> Prog).

(** [return this.request(options)] *)
Definition forward (options : RequestOptions) : Prog := Await options Settle.

(** Running an operation against a transport. *)
Fixpoint run (send : RequestOptions -> Async value) (p : Prog) : Async value :=
  match p with
  | Settle c => ([], c)
  | Await options k =>
      let (effects, c) := send options in
      let (effects', c') := run send (k c) in
      ((effects ++ effects')%list, c')
  end.

(** A step that may throw before the operation goes on. *)
Definition attempt {A : Type} (c : Completion A) (k : A -> Prog) : Prog :=
  match c with
  | Normal a => k a
  | Throw t => Settle (Throw t)
  end.

Definition GET (path : string) (queryParams : option (list (string * string)))
  (headers : option (list (string * string))) : RequestOptions :=
  mkRequest "GET" path None queryParams headers.

Definition POST (path : string) (data : option value)
  (headers : option (list (string * string))) : RequestOptions :=
  mkRequest "POST" path (option_map Plain data) None headers.

(** A POST whose data ends in the caller's [externalData ?? {}]. *)
Definition POST_external (path : string) (fields : list (string * value)) (key : string)
  (external : option CallerObject) : RequestOptions :=
  mkRequest "POST" path
    (Some (WithExternal fields key
             (match external with
              | Some o => o
              | None => Normal (Some "{}")
              end)))
    None None.

Definition or_string (s : option string) (fallback : string) : string :=
  match s with
  | Some s => s
  | None => fallback
  end.

Definition String_bool (b : bool) : string := if b then "true" else "false".

(** [if (cond) queryParams.key = text] *)
Definition add_when (cond : bool) (key text : string) (q : list (string * string))
  : list (string * string) :=
  if cond then set_own q key text else q.

Definition nonempty (s : option string) : bool :=
  match s with
  | Some s => negb (String.eqb s "")
  | None => false
  end.

Definition nonzero (n : option Z) : bool :=
  match n with
  | Some n => negb (n =? 0)
  | None => false
  end.

Definition defined {A : Type} (a : option A) : bool :=
  match a with
  | Some _ => true
  | None => false
  end.

(** *** Users, resources, venues *)

Record RegisterUserOptions : Type := {
  user_externalId : string;
  user_email : string;
  user_firstName : option string;
  user_lastName : option string
}.

Definition registerUser (options : RegisterUserOptions) : Prog :=
  forward (POST "/client/users/register/"
    (Some (JObject [("external_id", JString (user_externalId options));
                    ("email", JString (user_email options));
                    ("first_name", JString (or_string (user_firstName options) ""));
                    ("last_name", JString (or_string (user_lastName options) ""))]))
    None).

(** The [try]/[catch] shared by the three lookups. *)
Definition lookup_catch (c : Completion value) : Prog :=
  match c with
  | Normal v => Settle (Normal v)
  | Throw error =>
      if instanceof error C_NotFoundError then Settle (Normal JNull)
      else Settle (Throw error)
  end.

Definition lookupUser (externalId : string) : Prog :=
  Await (GET "/client/users/lookup/" (Some [("external_id", externalId)]) None)
        lookup_catch.

Record RegisterMappingOptions : Type := {
  map_externalId : string;
  map_matchengineId : Z;
  map_externalData : option CallerObject
}.

Definition registerResource (options : RegisterMappingOptions) : Prog :=
  forward (POST_external "/client/resources/register/"
    [("external_id", JString (map_externalId options));
     ("resource_id", JNumber (map_matchengineId options))]
    "external_data" (map_externalData options)).

Definition lookupResource (externalId : string) : Prog :=
  Await (GET "/client/resources/lookup/" (Some [("external_id", externalId)]) None)
        lookup_catch.

Record ListResourcesOptions : Type := {
  res_venueId : option Z;
  res_venueSlug : option string;
  res_isActive : option bool;
  res_isBookable : option bool
}.

Definition listResources (options : option ListResourcesOptions) : Prog :=
  let venueId := optional options res_venueId in
  let venueSlug := optional options res_venueSlug in
  let isActive := optional options res_isActive in
  let isBookable := optional options res_isBookable in
  let q := add_when (nonzero venueId) "venue"
             (Number_toString (match venueId with Some n => n | None => 0 end)) [] in
  let q := add_when (nonempty venueSlug) "venue_slug" (or_string venueSlug "") q in
  let q := add_when (defined isActive) "is_active"
             (String_bool (match isActive with Some b => b | None => false end)) q in
  let q := add_when (defined isBookable) "is_bookable"
             (String_bool (match isBookable with Some b => b | None => false end)) q in
  forward (GET "/resources/" (Some q) None).

Definition registerVenue (options : RegisterMappingOptions) : Prog :=
  forward (POST_external "/client/venues/register/"
    [("external_id", JString (map_externalId options));
     ("venue_id", JNumber (map_matchengineId options))]
    "external_data" (map_externalData options)).

Definition lookupVenue (externalId : string) : Prog :=
  Await (GET "/client/venues/lookup/" (Some [("external_id", externalId)]) None)
        lookup_catch.

Definition getVenueWithResources (venueExternalId : string) : Prog :=
  forward (GET "/venues/resources/" (Some [("venue_external_id", venueExternalId)]) None).

Record ListVenuesOptions : Type := {
  ven_city : option string;
  ven_venueType : option string;
  ven_search : option string;
  ven_isActive : option bool;
  ven_isFeatured : option bool;
  ven_page : option Z;
  ven_pageSize : option Z
}.

Definition listVenues (options : option ListVenuesOptions) : Prog :=
  let city := optional options ven_city in
  let venueType := optional options ven_venueType in
  let search := optional options ven_search in
  let isActive := optional options ven_isActive in
  let isFeatured := optional options ven_isFeatured in
  let page := optional options ven_page in
  let pageSize := optional options ven_pageSize in
  let q := add_when (nonempty city) "city" (or_string city "") [] in
  let q := add_when (nonempty venueType) "venue_type" (or_string venueType "") q in
  let q := add_when (nonempty search) "search" (or_string search "") q in
  let q := add_when (defined isActive) "is_active"
             (String_bool (match isActive with Some b => b | None => false end)) q in
  let q := add_when (defined isFeatured) "is_featured"
             (String_bool (match isFeatured with Some b => b | None => false end)) q in
  let q := add_when (nonzero page) "page"
             (Number_toString (match page with Some n => n | None => 0 end)) q in
  let q := add_when (nonzero pageSize) "page_size"
             (Number_toString (match pageSize with Some n => n | None => 0 end)) q in
  forward (GET "/venues/" (Some q) None).

(** A value spliced into a template literal. *)
Definition template (v : option value) : Completion string :=
  match v with
  | Some v => String_ v
  | None => Normal "undefined"
  end.

Definition getVenue (venueId : option value) : Prog :=
  attempt (template venueId) (fun id =>
    forward (GET ("/venues/" ++ id ++ "/") None None)).

Definition TypeError_not_a_function (what : string) : Thrown :=
  ThrowError "TypeError" (what ++ " is not a function").

Definition TypeError_read_undefined (prop : string) : Thrown :=
  ThrowError "TypeError"
    ("Cannot read properties of undefined (reading '" ++ prop ++ "')").

(** [items.find((v) => v.slug === slug)] *)
Fixpoint find_slug (items : list value) (slug : string) : Completion (option value) :=
  match items with
  | [] => Normal None
  | v :: rest =>
      s <- get v "slug" ;;
      match s with
      | Some (JString s) => if String.eqb s slug then Normal (Some v) else find_slug rest slug
      | _ => find_slug rest slug
      end
  end.

Definition getVenueBySlug (slug : string) : Prog :=
  Await (GET "/venues/" (Some [("search", slug)]) None) (fun c =>
    attempt c (fun response =>
      attempt (results <- get response "results" ;;
               match results with
               | Some (JArray items) => find_slug items slug
               | Some JNull => Throw (TypeError_read_null "find")
               | Some _ => Throw (TypeError_not_a_function "response.results.find")
               | None => Throw (TypeError_read_undefined "find")
               end)
        (fun venue =>
           match venue with
           | Some venue =>
               attempt (get venue "id") getVenue
           | None =>
               Settle (Throw (ThrowSdk (NotFoundError
                 (Some ("Venue with slug '" ++ slug ++ "' not found")))))
           end))).

(** *** Availability and bookings *)

Record AvailabilityByIdOptions : Type := {
  avail_resourceId : Z;
  avail_startDate : JsDate;
  avail_endDate : JsDate
}.

Definition getAvailabilityById (h : Host) (options : AvailabilityByIdOptions) : Prog :=
  forward (GET ("/resources/" ++ Number_toString (avail_resourceId options) ++ "/availability/")
    (Some [("start_date", formatDate h (avail_startDate options));
           ("end_date", formatDate h (avail_endDate options))])
    None).

Record AvailabilityOptions : Type := {
  av_resourceExternalId : string;
  av_startDate : JsDate;
  av_endDate : JsDate
}.

Definition getAvailability (h : Host) (options : AvailabilityOptions) : Prog :=
  forward (GET "/resources/availability/"
    (Some [("resource_external_id", av_resourceExternalId options);
           ("start_date", formatDate h (av_startDate options));
           ("end_date", formatDate h (av_endDate options))])
    None).

Record CreateBookingOptions : Type := {
  book_resourceExternalId : string;
  book_userExternalId : string;
  book_startDatetime : JsDate;
  book_endDatetime : JsDate;
  book_timezone : string;
  book_participantCount : option Z;
  book_notes : option string
}.

Definition createBooking (h : Host) (options : CreateBookingOptions) : Prog :=
  attempt (formatDateTimeWithTimezone h (book_startDatetime options) (book_timezone options))
    (fun start_datetime =>
  attempt (formatDateTimeWithTimezone h (book_endDatetime options) (book_timezone options))
    (fun end_datetime =>
  forward (POST "/bookings/"
    (Some (JObject
       [("resource_external_id", JString (book_resourceExternalId options));
        ("start_datetime", JString start_datetime);
        ("end_datetime", JString end_datetime);
        ("participant_count",
         JNumber (match book_participantCount options with Some n => n | None => 1 end));
        ("notes", JString (or_string (book_notes options) ""))]))
    (Some [("X-User-External-ID", book_userExternalId options)])))).

Definition getBooking (bookingId : Z) (userExternalId : option string) : Prog :=
  forward (GET ("/bookings/" ++ Number_toString bookingId ++ "/") None
    (if nonempty userExternalId
     then Some [("X-User-External-ID", or_string userExternalId "")]
     else None)).

Record ListBookingsOptions : Type := {
  list_status : option string;
  list_upcomingOnly : option bool
}.

Definition listBookings_request (options : option ListBookingsOptions) : RequestOptions :=
  let status := optional options list_status in
  let upcomingOnly := optional options list_upcomingOnly in
  let q := add_when (nonempty status) "status" (or_string status "") [] in
  let q := add_when (match upcomingOnly with Some b => b | None => false end)
             "upcoming" "true" q in
  GET "/bookings/" (Some q) None.

Definition listBookings (options : option ListBookingsOptions) : Prog :=
  Await (listBookings_request options) (fun c =>
    attempt c (fun response =>
      if isArray (Some response) then Settle (Normal response)
      else
        attempt (get response "results") (fun results =>
          Settle (Normal (match results with
                          | Some JNull | None => JArray []
                          | Some r => r
                          end))))).

Record PaymentIntentOptions : Type := {
  pay_bookingId : Z;
  pay_userExternalId : string
}.

Definition createPaymentIntent (options : PaymentIntentOptions) : Prog :=
  forward (POST ("/bookings/" ++ Number_toString (pay_bookingId options)
                   ++ "/create-payment-intent/")
    None
    (Some [("X-User-External-ID", pay_userExternalId options)])).

Record CancelBookingOptions : Type := {
  cancel_bookingId : Z;
  cancel_userExternalId : string;
  cancel_reason : option string;
  cancel_notes : option string
}.

Definition cancelBooking (options : CancelBookingOptions) : Prog :=
  forward (POST ("/bookings/" ++ Number_toString (cancel_bookingId options) ++ "/cancel/")
    (Some (JObject [("reason", JString (or_string (cancel_reason options) "user_request"));
                    ("notes", JString (or_string (cancel_notes options) ""))]))
    (Some [("X-User-External-ID", cancel_userExternalId options)])).

(** *** The public surface of the client *)

Inductive Call : Type :=
| RegisterUser (options : RegisterUserOptions)
| LookupUser (externalId : string)
| RegisterResource (options : RegisterMappingOptions)
| LookupResource (externalId : string)
| ListResources (options : option ListResourcesOptions)
| RegisterVenue (options : RegisterMappingOptions)
| LookupVenue (externalId : string)
| GetVenueWithResources (venueExternalId : string)
| ListVenues (options : option ListVenuesOptions)
| GetVenue (venueId : Z)
| GetVenueBySlug (slug : string)
| GetAvailabilityById (options : AvailabilityByIdOptions)
| GetAvailability (options : AvailabilityOptions)
| CreateBooking (options : CreateBookingOptions)
| GetBooking (bookingId : Z) (userExternalId : option string)
| ListBookings (options : option ListBookingsOptions)
| CreatePaymentIntent (options : PaymentIntentOptions)
| CancelBooking (options : CancelBookingOptions).

Definition operation (h : Host) (call : Call) : Prog :=
  match call with
  | RegisterUser o => registerUser o
  | LookupUser id => lookupUser id
  | RegisterResource o => registerResource o
  | LookupResource id => lookupResource id
  | ListResources o => listResources o
  | RegisterVenue o => registerVenue o
  | LookupVenue id => lookupVenue id
  | GetVenueWithResources id => getVenueWithResources id
  | ListVenues o => listVenues o
  | GetVenue id => getVenue (Some (JNumber id))
  | GetVenueBySlug slug => getVenueBySlug slug
  | GetAvailabilityById o => getAvailabilityById h o
  | GetAvailability o => getAvailability h o
  | CreateBooking o => createBooking h o
  | GetBooking id user => getBooking id user
  | ListBookings o => listBookings o
  | CreatePaymentIntent o => createPaymentIntent o
  | CancelBooking o => cancelBooking o
  end.

Definition is_lookup (call : Call) : bool :=
  match call with
  | LookupUser _ | LookupResource _ | LookupVenue _ => true
  | _ => false
  end.

(** A call of the client on a host. *)
Definition perform (h : Host) (this : MatchEngineClient) (call : Call) : Async value :=
  run (request h this) (operation h call).

(** An operation hands on every rejection of the requests it awaits: none is
    turned into a value or into another error. *)
Inductive propagates : Prog -> Prop :=
| propagates_Settle c : propagates (Settle c)
| propagates_Await options k :
    (forall t, k (Throw t) = Settle (Throw t)) ->
    (forall v, propagates (k (Normal v))) ->
    propagates (Await options k).

(** ** The error taxonomy of the specification

    The kinds of the specification's section 7; the SDK has no class for a timeout, which is the base
    class carrying status code 408. *)

Inductive ErrorKind : Type :=
| AuthenticationFailed
| NotFound
| Validation
| SlotNotAvailable
| UserNotFound
| RequestTimeout
| Generic
| BookingFailed
| PaymentFailed.

Definition kind_of (e : SdkError) : ErrorKind :=
  match cls e with
  | C_AuthenticationError => AuthenticationFailed
  | C_NotFoundError => NotFound
  | C_ValidationError => Validation
  | C_SlotNotAvailableError => SlotNotAvailable
  | C_UserNotFoundError => UserNotFound
  | C_BookingError => BookingFailed
  | C_PaymentError => PaymentFailed
  | C_MatchEngineError =>
      match statusCode e with
      | Some code => if code =? 408 then RequestTimeout else Generic
      | None => Generic
      end
  end.

(** The outcomes of the requests an operation awaits, in order. *)
Fixpoint outcomes (send : RequestOptions -> Async value) (p : Prog)
  : list (Completion value) :=
  match p with
  | Settle _ => []
  | Await options k => let c := snd (send options) in c :: outcomes send (k c)
  end.

(** [handleError] returns an error whose message is [m]. *)
Definition derives (statusCode : Z) (data : value) (m : string) : Prop :=
  exists e, handleError statusCode data = Normal e /\ message e = m.

(** A text made of decimal digits only. *)
Fixpoint all_digits (s : string) : bool :=
  match s with
  | EmptyString => true
  | String c s' => is_digit c && all_digits s'
  end.

(** A text at which a run of digits ends. *)
Definition stops_digits (rest : string) : Prop :=
  match rest with
  | String c _ => is_digit c = false
  | EmptyString => True
  end.

Definition is_string (v : option value) : bool :=
  match v with
  | Some (JString _) => true
  | _ => false
  end.

Definition nonempty_array (v : option value) : bool :=
  match v with
  | Some (JArray (_ :: _)) => true
  | _ => false
  end.

(** ** A host to run examples on

    URLs are left as written, timers clamp as Node does, every [fetch] meets
    the same exchange, and no [luxon] is installed. *)

Fixpoint query_string (q : list (string * string)) : string :=
  match q with
  | [] => ""
  | [(k, v)] => k ++ "=" ++ v
  | (k, v) :: rest => k ++ "=" ++ v ++ "&" ++ query_string rest
  end.

Definition node_timer_delay (d : Z) : Z :=
  if (1 <=? d) && (d <=? 2147483647) then d else 1.

Definition example_host (x : Exchange) : Host :=
  {| URL_href := fun text q =>
       Some (match q with [] => text | _ => text ++ "?" ++ query_string q end);
     fetch := fun _ _ => x;
     timer_delay := node_timer_delay;
     getFullYear := fun _ => 2025;
     getMonth := fun _ => 0;
     getDate := fun _ => 15;
     luxon_toISO := None;
     Intl_dateTimeParts := fun _ _ =>
       Normal [("year", "2025"); ("literal", "-"); ("month", "01"); ("literal", "-");
               ("day", "15"); ("literal", ", "); ("hour", "10"); ("literal", ":");
               ("minute", "00"); ("literal", ":"); ("second", "00")];
     Intl_offsetParts := fun _ _ =>
       Normal [("month", "1"); ("literal", "/"); ("day", "15"); ("literal", "/");
               ("year", "2025"); ("literal", ", "); ("timeZoneName", "GMT+1")] |}.

(** The server answers [status] with the body [body], 40 ms to the headers
    and 5 ms more to the body. *)
Definition answers (status : Z) (body : Completion value) : Exchange :=
  {| fetch_ms := 40; fetched := Normal (mkResponse status 5 body) |}.

Definition example_client : MatchEngineClient :=
  new_MatchEngineClient (mkConfig "https://api.example.com/" "secret" "pk_test" None).

Definition SyntaxError : Thrown :=
  ThrowError "SyntaxError" "Unexpected end of JSON input".

(** The headers arrive after 10 ms, the body 50 s later. *)
Definition slow_body (v : value) : Exchange :=
  {| fetch_ms := 10; fetched := Normal (mkResponse 200 50000 (Normal v)) |}.

(** Nothing comes back within the hour. *)
Definition silence : Exchange :=
  {| fetch_ms := 3600000; fetched := Throw (ThrowError "TypeError" "fetch failed") |}.

(** ** [src/models/booking.ts] and [src/models/venue.ts]: helpers

    The models are plain snapshots decoded from JSON; the helpers read their
    members. *)

(** Truthiness of a member that may be missing. *)
Definition truthy_opt (v : option value) : bool :=
  match v with
  | Some v => truthy v
  | None => false
  end.

(** [member === text] *)
Definition strict_is (member : option value) (text : string) : bool :=
  match member with
  | Some (JString s) => String.eqb s text
  | _ => false
  end.

Module BookingHelpers.

Definition isPaid (booking : value) : Completion bool :=
  status <- get booking "status" ;;
  Normal (strict_is status "paid").

Definition isPending (booking : value) : Completion bool :=
  status <- get booking "status" ;;
  Normal (strict_is status "pending").

Definition isCancelled (booking : value) : Completion bool :=
  status <- get booking "status" ;;
  if strict_is status "cancelled" then Normal true
  else
    status' <- get booking "status" ;;
    Normal (strict_is status' "refunded").

End BookingHelpers.

Module VenueHelpers.

(** [(r) => r.is_bookable && r.is_active], as [filter] reads it. *)
Definition bookable (r : value) : Completion bool :=
  is_bookable <- get r "is_bookable" ;;
  if truthy_opt is_bookable then
    is_active <- get r "is_active" ;;
    Normal (truthy_opt is_active)
  else Normal false.

(** [items.filter(...)] with a callback that may throw. *)
Fixpoint filter_bookable (items : list value) : Completion (list value) :=
  match items with
  | [] => Normal []
  | r :: rest =>
      keep <- bookable r ;;
      kept <- filter_bookable rest ;;
      Normal (if keep then r :: kept else kept)
  end.

Definition getBookableResources (venue : value) : Completion value :=
  resources <- get venue "resources" ;;
  match resources with
  | Some (JArray items) =>
      kept <- filter_bookable items ;;
      Normal (JArray kept)
  | Some JNull => Throw (TypeError_read_null "filter")
  | Some _ => Throw (TypeError_not_a_function "venue.resources.filter")
  | None => Throw (TypeError_read_undefined "filter")
  end.

End VenueHelpers.

(** ** Notions used in the statements *)

(** Lookup in a key/value list, the first binding of a key. *)
Fixpoint assoc {A : Type} (fields : list (string * A)) (key : string) : option A :=
  match fields with
  | [] => None
  | (k, v) :: rest => if String.eqb k key then Some v else assoc rest key
  end.

(** The member [key] of a decoded value, [None] when it has none. *)
Definition member (v : value) (key : string) : option value :=
  match v with
  | JObject fields => own fields key
  | _ => None
  end.

Definition is_fetch (e : Effect) : bool :=
  match e with
  | Fetch _ _ => true
  | _ => false
  end.

(** How many times [fetch] was called. *)
Definition fetches (effects : list Effect) : nat :=
  List.length (List.filter is_fetch effects).

(** Every request an operation may await satisfies [P]. *)
Inductive awaits_only (P : RequestOptions -> Prop) : Prog -> Prop :=
| awaits_only_Settle c : awaits_only P (Settle c)
| awaits_only_Await options k :
    P options -> (forall c, awaits_only P (k c)) -> awaits_only P (Await options k).

(** An operation awaits at most [n] requests, whatever they settle to. *)
Inductive awaits_at_most : nat -> Prog -> Prop :=
| awaits_at_most_Settle n c : awaits_at_most n (Settle c)
| awaits_at_most_Await n options k :
    (forall c, awaits_at_most n (k c)) -> awaits_at_most (S n) (Await options k).

(** The headers an operation passes are, at most, the user's external id. *)
Definition user_header_only (options : RequestOptions) : Prop :=
  headers options = None \/
  exists user, headers options = Some [("X-User-External-ID", user)].

(** A descriptor as the public operations build them: a GET without body or
    a POST, with at most the user's external id as header. *)
Definition well_built (options : RequestOptions) : Prop :=
  user_header_only options /\
  ((method options = "GET" /\ data options = None) \/ method options = "POST").

(** A resource whose [is_bookable] and [is_active] members are both truthy. *)
Definition resource_counts (r : value) : bool :=
  truthy_opt (member r "is_bookable") && truthy_opt (member r "is_active").

(** A venue with three resources, one of them bookable and active. *)
Definition three_courts : value :=
  JObject [("name", JString "Centre");
           ("resources",
            JArray [JObject [("id", JNumber 1); ("is_bookable", JBool true);
                             ("is_active", JBool false)];
                    JObject [("id", JNumber 2); ("is_bookable", JBool true);
                             ("is_active", JBool true)];
                    JObject [("id", JNumber 3); ("is_active", JBool true)]])].

Fixpoint last_char (s : string) : option ascii :=
  match s with
  | EmptyString => None
  | String c EmptyString => Some c
  | String _ s' => last_char s'
  end.

(** A host on which no URL parses. *)
Definition urlless_host : Host :=
  {| URL_href := fun _ _ => None;
     fetch := fetch (example_host silence);
     timer_delay := node_timer_delay;
     getFullYear := getFullYear (example_host silence);
     getMonth := getMonth (example_host silence);
     getDate := getDate (example_host silence);
     luxon_toISO := None;
     Intl_dateTimeParts := Intl_dateTimeParts (example_host silence);
     Intl_offsetParts := Intl_offsetParts (example_host silence) |}.

(** A host with [luxon] installed, behaving as [toISO] says. *)
Definition luxon_host (toISO : JsDate -> string -> Completion (option string)) : Host :=
  {| URL_href := URL_href (example_host silence);
     fetch := fetch (example_host silence);
     timer_delay := node_timer_delay;
     getFullYear := getFullYear (example_host silence);
     getMonth := getMonth (example_host silence);
     getDate := getDate (example_host silence);
     luxon_toISO := Some toISO;
     Intl_dateTimeParts := Intl_dateTimeParts (example_host silence);
     Intl_offsetParts := Intl_offsetParts (example_host silence) |}.

(** A host whose [Intl] rejects every time zone. *)
Definition zoneless_host : Host :=
  {| URL_href := URL_href (example_host silence);
     fetch := fetch (example_host silence);
     timer_delay := node_timer_delay;
     getFullYear := getFullYear (example_host silence);
     getMonth := getMonth (example_host silence);
     getDate := getDate (example_host silence);
     luxon_toISO := None;
     Intl_dateTimeParts := fun _ _ =>
       Throw (ThrowError "RangeError" "Invalid time zone specified");
     Intl_offsetParts := fun _ _ =>
       Throw (ThrowError "RangeError" "Invalid time zone specified") |}.

(** The body of a venue search that found one venue. *)
Definition one_venue : value :=
  JObject [("count", JNumber 1); ("next", JNull); ("previous", JNull);
           ("results", JArray [JObject [("id", JNumber 3);
                                        ("slug", JString "centre-court")]])].

(** The request a lookup sends: a GET of the lookup path, the external id
    as its only query parameter. *)
Definition lookup_request (call : Call) : option RequestOptions :=
  match call with
  | LookupUser externalId =>
      Some (GET "/client/users/lookup/" (Some [("external_id", externalId)]) None)
  | LookupResource externalId =>
      Some (GET "/client/resources/lookup/" (Some [("external_id", externalId)]) None)
  | LookupVenue externalId =>
      Some (GET "/client/venues/lookup/" (Some [("external_id", externalId)]) None)
  | _ => None
  end.

(** ** The form asked of the datetime formatter

    [YYYY-MM-DDTHH:mm:ss+HH:MM], the sign being [+] or [-]: every field of
    fixed width, no fraction of a second, no [Z]. *)

Inductive Slot : Type :=
| Digit
| Sign
| Literal (c : ascii).

Fixpoint fits (form : list Slot) (s : string) : bool :=
  match form, s with
  | [], EmptyString => true
  | slot :: form', String c s' =>
      match slot with
      | Digit => is_digit c
      | Sign => Ascii.eqb c "+" || Ascii.eqb c "-"
      | Literal l => Ascii.eqb c l
      end && fits form' s'
  | _, _ => false
  end.

Definition exact_form (s : string) : bool :=
  fits [Digit; Digit; Digit; Digit; Literal "-"; Digit; Digit; Literal "-"; Digit; Digit;
        Literal "T"; Digit; Digit; Literal ":"; Digit; Digit; Literal ":"; Digit; Digit;
        Sign; Digit; Digit; Literal ":"; Digit; Digit] s.

(** ** The formatters of the platform, as documented

    [luxon] and [Intl.DateTimeFormat] are not code of this repository; the
    host below answers for them, at four instants, what their documentation
    says they answer.

    - [luxon], [DateTime#toISO]: the extended ISO 8601 text, as in
      ['2017-04-22T20:47:05.335-04:00']; [suppressMilliseconds] "excludes
      milliseconds from the format if they're 0", so that any other
      millisecond count is printed; a date in the UTC zone carries [Z] for
      its offset, as in [DateTime.utc(1983, 5, 25).toISO()], which is
      ['1983-05-25T00:00:00.000Z']; the year has four digits.
    - [Intl.DateTimeFormat] (ECMA-402), [formatToParts]: a [2-digit] field is
      padded to two digits and a [numeric] one is not padded at all, so that
      the year 999 prints as [999]; [timeZoneName: "shortOffset"] prints
      [GMT+1], [GMT+5:30] and, at offset zero, [GMT]; the dates are those of
      the proleptic Gregorian calendar.

    An instant and a zone outside the table stand for a zone the platform
    does not know: [luxon] answers [null] for its invalid [DateTime], and
    the constructor of [Intl.DateTimeFormat] throws a [RangeError]. *)

(** 2025-01-15T09:00:00.000Z *)
Definition morning : JsDate := 1736931600000.

(** 2025-01-15T09:00:00.123Z *)
Definition morning_123 : JsDate := 1736931600123.

(** 0999-01-15T10:00:00.000Z *)
Definition year_999 : JsDate := -30640514400000.

Record Reading : Type := mkReading {
  at_instant : JsDate;
  in_zone : string;
  (** [toISO({ suppressMilliseconds: true })] *)
  luxon_text : string;
  (** The [value]s of the fields of the first formatter of the fallback. *)
  Intl_fields : string * string * string * string * string * string;
  (** The text of the second formatter of the fallback, [en] with
      [timeZoneName: "shortOffset"]: its date, numeric, and the offset. *)
  Intl_numeric_date : string * string * string;
  Intl_shortOffset : string
}.

Definition readings : list Reading :=
  [mkReading morning "Europe/Berlin" "2025-01-15T10:00:00+01:00"
     ("2025", "01", "15", "10", "00", "00") ("1", "15", "2025") "GMT+1";
   mkReading morning_123 "Europe/Berlin" "2025-01-15T10:00:00.123+01:00"
     ("2025", "01", "15", "10", "00", "00") ("1", "15", "2025") "GMT+1";
   mkReading morning "Asia/Kolkata" "2025-01-15T14:30:00+05:30"
     ("2025", "01", "15", "14", "30", "00") ("1", "15", "2025") "GMT+5:30";
   mkReading morning "UTC" "2025-01-15T09:00:00Z"
     ("2025", "01", "15", "09", "00", "00") ("1", "15", "2025") "GMT";
   mkReading year_999 "UTC" "0999-01-15T10:00:00Z"
     ("999", "01", "15", "10", "00", "00") ("1", "15", "999") "GMT"].

Definition reading (date : JsDate) (zone : string) : option Reading :=
  find (fun r => (at_instant r =? date) && String.eqb (in_zone r) zone) readings.

Definition documented_toISO (date : JsDate) (zone : string) : Completion (option string) :=
  Normal (option_map luxon_text (reading date zone)).

Definition documented_dateTimeParts (zone : string) (date : JsDate)
  : Completion (list (string * string)) :=
  match reading date zone with
  | Some r =>
      let '(year, month, day, hour, minute, second) := Intl_fields r in
      Normal [("year", year); ("literal", "-"); ("month", month); ("literal", "-");
              ("day", day); ("literal", ", "); ("hour", hour); ("literal", ":");
              ("minute", minute); ("literal", ":"); ("second", second)]
  | None => Throw (ThrowError "RangeError" "Invalid time zone specified")
  end.

Definition documented_offsetParts (zone : string) (date : JsDate)
  : Completion (list (string * string)) :=
  match reading date zone with
  | Some r =>
      let '(month, day, year) := Intl_numeric_date r in
      Normal [("month", month); ("literal", "/"); ("day", day); ("literal", "/");
              ("year", year); ("literal", ", "); ("timeZoneName", Intl_shortOffset r)]
  | None => Throw (ThrowError "RangeError" "Invalid time zone specified")
  end.

(** The documented platform, with [luxon] installed or without it. *)
Definition documented_host (luxon : bool) : Host :=
  {| URL_href := URL_href (example_host silence);
     fetch := fetch (example_host silence);
     timer_delay := node_timer_delay;
     getFullYear := getFullYear (example_host silence);
     getMonth := getMonth (example_host silence);
     getDate := getDate (example_host silence);
     luxon_toISO := if luxon then Some documented_toISO else None;
     Intl_dateTimeParts := documented_dateTimeParts;
     Intl_offsetParts := documented_offsetParts |}.

(** * Properties *)

(** ** Strings *)

Lemma substring_prefix (p q : string) :
  String.substring 0 (String.length p) (p ++ q) = p.
Proof.
  induction p as [|c p IH]; simpl.
  - destruct q; reflexivity.
  - now rewrite IH.
Qed.

Lemma length_snoc (p : string) (c : ascii) :
  String.length (p ++ String c "") = S (String.length p).
Proof. induction p; simpl; congruence. Qed.

Lemma slice_drop_last (p : string) (c : ascii) :
  slice (p ++ String c "") 0 (-1) = p.
Proof.
  unfold slice, slice_index. rewrite length_snoc.
  replace (0 <? 0) with false by reflexivity.
  replace (-1 <? 0) with true by reflexivity.
  rewrite Z.min_l by lia. rewrite Z.max_l by lia.
  replace (Z.to_nat 0) with 0%nat by reflexivity.
  replace (Z.to_nat (Z.of_nat (S (String.length p)) + -1 - 0)) with (String.length p) by lia.
  apply substring_prefix.
Qed.

Lemma endsWith_char_inv (s : string) (c : ascii) :
  endsWith s (String c "") = true -> exists p, s = p ++ String c "".
Proof.
  induction s as [|a s IH]; simpl.
  - discriminate.
  - intros H. apply orb_true_iff in H. destruct H as [H|H].
    + exists "". simpl. destruct (Ascii.eqb_spec a c) as [->|]; [|discriminate].
      destruct s; [reflexivity|discriminate].
    + destruct (IH H) as [p ->]. now exists (String a p).
Qed.

Lemma snoc_eqb_char (p : string) (c : ascii) :
  String.eqb (p ++ String c "") (String c "") = String.eqb p "".
Proof.
  destruct p as [|a p]; simpl.
  - now rewrite Ascii.eqb_refl.
  - destruct (Ascii.eqb a c); [|reflexivity]. destruct p; reflexivity.
Qed.

Lemma endsWith_snoc (p : string) (c : ascii) :
  endsWith (p ++ String c "") (String c (String c "")) = endsWith p (String c "").
Proof.
  induction p as [|a p IH].
  - simpl. rewrite Ascii.eqb_refl. reflexivity.
  - cbn [append endsWith]. rewrite IH. f_equal.
    cbn [String.eqb]. destruct (Ascii.eqb a c); [|reflexivity].
    rewrite snoc_eqb_char. reflexivity.
Qed.

Lemma endsWith_twice (s : string) (c : ascii) :
  endsWith s (String c (String c "")) = true -> endsWith s (String c "") = true.
Proof.
  induction s as [|a s IH]; simpl.
  - discriminate.
  - intros H. apply orb_true_iff in H. apply orb_true_iff. destruct H as [H|H].
    + right. destruct (Ascii.eqb a c); [|discriminate].
      destruct s as [|b s]; [discriminate|]. simpl. simpl in H. rewrite H. reflexivity.
    + right. auto.
Qed.

Lemma endsWith_refl (s : string) : endsWith s s = true.
Proof.
  destruct s; [reflexivity|]. cbn [endsWith]. now rewrite String.eqb_refl.
Qed.

Lemma endsWith_app (p s : string) : endsWith (p ++ s) s = true.
Proof.
  induction p as [|a p IH]; simpl.
  - apply endsWith_refl.
  - rewrite IH. apply orb_true_r.
Qed.

(** ** Configuration *)

(** C9, as stated, fails: of two trailing slashes one is left. *)
Lemma createConfig_leaves_a_slash :
  ~ (forall config, endsWith (cfg_baseUrl (createConfig config)) "/" = false).
Proof.
  intros H.
  specialize (H (mkConfig "https://api.example.com//" "secret" "pk_test" None)).
  vm_compute in H. discriminate.
Qed.

(** C9 (amended): [createConfig] removes exactly one trailing slash from the
    base address and leaves an address without one as it is, so the stored
    address ends with a slash exactly when the given one ends with two; an
    absent timeout becomes 30000 ms, a given one is kept; the token and the
    publishable key pass through. *)
Theorem createConfig_normalizes (config : MatchEngineConfig) :
  (forall p, baseUrl config = p ++ "/" -> cfg_baseUrl (createConfig config) = p) /\
  (endsWith (baseUrl config) "/" = false ->
   cfg_baseUrl (createConfig config) = baseUrl config) /\
  endsWith (cfg_baseUrl (createConfig config)) "/" = endsWith (baseUrl config) "//" /\
  (timeoutMs config = None -> cfg_timeoutMs (createConfig config) = 30000) /\
  (forall ms, timeoutMs config = Some ms -> cfg_timeoutMs (createConfig config) = ms) /\
  cfg_apiToken (createConfig config) = apiToken config /\
  cfg_stripePublishableKey (createConfig config) = stripePublishableKey config.
Proof.
  destruct config as [base token key timeout]. unfold createConfig. cbn [baseUrl timeoutMs
    apiToken stripePublishableKey cfg_baseUrl cfg_timeoutMs cfg_apiToken
    cfg_stripePublishableKey].
  repeat split.
  - intros p ->. rewrite endsWith_app. apply slice_drop_last.
  - intros ->. reflexivity.
  - destruct (endsWith base "/") eqn:E.
    + destruct (endsWith_char_inv _ _ E) as [p ->].
      rewrite slice_drop_last. symmetry. apply endsWith_snoc.
    + rewrite E. destruct (endsWith base "//") eqn:E2; [|reflexivity].
      apply endsWith_twice in E2. congruence.
  - intros ->. reflexivity.
  - intros ms ->. reflexivity.
Qed.

(** ** The transport *)

(** What [request] settles to once it has received a response. *)
Lemma exchange_of_fetch h this options x :
  exchange_of h this options = Some x ->
  exists href,
    href_of h this options = Some href /\
    fetch h href (request_init this options) = x /\
    request_attempt h this options href =
    request_try h (cfg_timeoutMs (config this)) href (request_init this options).
Proof.
  unfold exchange_of, request_attempt.
  destruct (href_of h this options) as [href|]; [|discriminate].
  destruct (request_body options); [|discriminate].
  intros [= Hx]. now exists href.
Qed.

Lemma request_received h this options r :
  receives h this options r ->
  snd (request h this options) =
  if ok r then
    match json r with
    | Normal v => Normal v
    | Throw t => Throw (ThrowSdk (request_catch t))
    end
  else
    match handleError (status r)
            (match json r with Normal v => v | Throw _ => JObject [] end) with
    | Normal e => Throw (ThrowSdk e)
    | Throw t => Throw (ThrowSdk (request_catch t))
    end.
Proof.
  intros (x & Hx & Hms & Hr).
  destruct (exchange_of_fetch _ _ _ _ Hx) as (href & Hhref & Hfetch & Htry).
  unfold request. rewrite Hhref. cbv zeta. rewrite Htry.
  unfold request_try. rewrite Hfetch.
  apply Z.leb_gt in Hms. rewrite Hms, Hr.
  destruct (ok r); cbn [negb].
  - destruct (json r); reflexivity.
  - destruct (handleError (status r) _); reflexivity.
Qed.

Lemma fetches_quiet rest :
  (forall e, In e rest -> e = AbortFetch \/ e = ClearTimeout) -> fetches rest = 0%nat.
Proof.
  induction rest as [|e rest IH]; [reflexivity|]. intros H.
  unfold fetches in *. cbn [filter].
  destruct (H e (or_introl eq_refl)) as [-> | ->]; cbn [is_fetch];
    apply IH; intros e' He'; apply H; now right.
Qed.

(** The three ways through [request], by what it does. *)
Lemma request_effects h this options :
  match href_of h this options with
  | None => request h this options = ([], Throw (ThrowError "TypeError" "Invalid URL"))
  | Some href =>
      match request_body options with
      | Throw t =>
          request h this options =
          ([SetTimeout (cfg_timeoutMs (config this)); ClearTimeout],
           Throw (ThrowSdk (request_catch t)))
      | Normal _ =>
          exists rest,
            fst (request h this options) =
            SetTimeout (cfg_timeoutMs (config this))
              :: Fetch href (request_init this options) :: rest /\
            (forall e, In e rest -> e = AbortFetch \/ e = ClearTimeout) /\
            In ClearTimeout rest
      end
  end.
Proof.
  unfold request, request_attempt.
  destruct (href_of h this options) as [href|]; [|reflexivity].
  destruct (request_body options) as [body|t]; [|reflexivity].
  cbv zeta. unfold request_try.
  destruct (timer_delay h _ <=? fetch_ms _).
  { eexists. split; [reflexivity|]. cbn. intuition. }
  destruct (fetched _) as [r|t].
  - destruct (ok r); cbn [negb].
    + destruct (json r); (eexists; split; [reflexivity|]); cbn; intuition.
    + destruct (handleError (status r) _); (eexists; split; [reflexivity|]);
        cbn; intuition.
  - eexists. split; [reflexivity|]. cbn. intuition.
Qed.

(** X6: [request] never lets anything but an SDK error out of its [try]. *)
Lemma request_rejects_typed h this options t :
  snd (request h this options) = Throw t ->
  (exists e, t = ThrowSdk e) \/
  href_of h this options = None.
Proof.
  unfold request.
  destruct (href_of h this options) as [href|]; [|now right].
  cbv zeta. destruct (request_attempt h this options href) as [effects [v|error]]; cbn [snd].
  - discriminate.
  - intros [= <-]. left. eauto.
Qed.

(** ** Error normalisation *)

Lemma handleError_from_message statusCode data m :
  handleError_message data = Normal m ->
  handleError statusCode data =
  Normal
    (if statusCode =? 401 then AuthenticationError (Some m)
     else if statusCode =? 404 then NotFoundError (Some m)
     else if statusCode =? 400 then
       if includes (toLowerCase m) "not available"
       then SlotNotAvailableError (Some m)
       else if includes (toLowerCase m) "user" && includes (toLowerCase m) "not found"
       then UserNotFoundError (Some m)
       else ValidationError m (Some (mkValidationOptions None (Some data)))
     else MatchEngineError m (Some (mkErrorOptions (Some statusCode) (Some data)))).
Proof. intros H. unfold handleError. rewrite H. reflexivity. Qed.

Lemma handleError_keeps_message statusCode data m :
  handleError_message data = Normal m -> derives statusCode data m.
Proof.
  intros H. unfold derives. rewrite (handleError_from_message _ _ _ H).
  eexists; split; [reflexivity|].
  repeat match goal with |- context [if ?b then _ else _] => destruct b end;
    reflexivity.
Qed.

Lemma handleError_message_of statusCode data e :
  handleError statusCode data = Normal e -> handleError_message data = Normal (message e).
Proof.
  unfold handleError. destruct (handleError_message data) as [m|t]; cbn [bind].
  - intros [= <-]. f_equal.
    repeat match goal with |- context [if ?b then _ else _] => destruct b end;
      reflexivity.
  - discriminate.
Qed.

(** X3: The derivation completes exactly on the bodies other than [null] on
    which the first element of [non_field_errors], when it is the one used
    (neither [error] nor [detail] is a string), converts to a string. *)
Theorem handleError_message_completes data :
  (exists m, handleError_message data = Normal m) <->
  data <> JNull /\
  (is_string (member data "error") = false ->
   is_string (member data "detail") = false ->
   forall first rest,
     member data "non_field_errors" = Some (JArray (first :: rest)) ->
     exists s, String_ first = Normal s).
Proof.
  unfold handleError_message. split.
  - intros [m H]. split; [intros ->; discriminate H|].
    destruct data as [| b | n | s | items | fields];
      cbn [member]; try discriminate.
    cbn [get bind] in H. intros He Hd first rest Hn. rewrite Hn in H.
    destruct (own fields "error") as [[]|]; try discriminate He;
    destruct (own fields "detail") as [[]|]; try discriminate Hd;
    now exists m.
  - intros [Hnull H].
    destruct data as [| b | n | s | items | fields]; try congruence;
      cbn [get bind typeof JsType_eqb member is_string] in *;
      try (eexists; reflexivity).
    destruct (own fields "error") as [[]|]; try (eexists; reflexivity);
    destruct (own fields "detail") as [[]|]; try (eexists; reflexivity);
    destruct (own fields "non_field_errors") as [[| | | |[|]|]|];
    try (eexists; reflexivity); exact (H eq_refl eq_refl _ _ eq_refl).
Qed.

(** A body that is [null] makes [handleError] throw instead of returning. *)
Lemma handleError_null statusCode :
  handleError statusCode JNull = Throw (TypeError_read_null "error").
Proof. reflexivity. Qed.

(** *** The derived message *)

Example message_error_first :
  derives 500 (JObject [("error", JString "E"); ("detail", JString "D")]) "E".
Proof. eexists; split; reflexivity. Qed.

Example message_detail :
  derives 500 (JObject [("detail", JString "D")]) "D".
Proof. eexists; split; reflexivity. Qed.

Example message_non_field_errors :
  derives 500 (JObject [("non_field_errors", JArray [JString "X"; JString "Y"])]) "X".
Proof. eexists; split; reflexivity. Qed.

Example message_json_text :
  derives 500 (JObject [("foo", JString "bar")])
    ("{" ++ quote "foo" ++ ":" ++ quote "bar" ++ "}").
Proof. eexists; split; reflexivity. Qed.

Example message_of_a_number_body : derives 500 (JNumber 42) "Unknown error".
Proof. eexists; split; reflexivity. Qed.

(** Numbers print as JavaScript prints them, whatever their size. *)
Example message_of_a_large_number :
  derives 400 (JObject [("non_field_errors", JArray [JNumber (mkNumber "1e+21")])])
    "1e+21".
Proof. eexists; split; reflexivity. Qed.

Example message_of_a_fraction :
  derives 400 (JObject [("non_field_errors", JArray [JArray [JNumber (mkNumber "1.5");
                                                              JNull;
                                                              JNumber (mkNumber "-0.25")]])])
    "1.5,,-0.25".
Proof. eexists; split; reflexivity. Qed.

(** [JSON.parse] reads [1e999] as [Infinity], which [JSON.stringify] writes as
    [null]. *)
Example message_of_an_overflowing_number :
  derives 500 (JArray [JNumber (mkNumber "Infinity"); JNumber (mkNumber "1e+21")])
    "[null,1e+21]".
Proof. eexists; split; reflexivity. Qed.

(** C1, as stated, fails: a body that does not parse is replaced by the empty
    object, and the message is that object's JSON text, not ["Unknown error"]. *)
Lemma unparseable_body_message :
  exists e,
    snd (request (example_host (answers 500 (Throw SyntaxError))) example_client
           (GET "/bookings/" None None))
    = Throw (ThrowSdk e) /\
    message e = "{}" /\ message e <> "Unknown error".
Proof. eexists. split; [reflexivity|]. split; [reflexivity|discriminate]. Qed.

(** C1 (amended): on a body whose members can be read (anything but [null]),
    the derived message is the string member [error]; else the string member
    [detail]; else the string form of the first element of a non-empty list
    [non_field_errors], when that conversion completes; else the JSON text of
    the body when it is an object or a list; else, the body being a string, a
    number or a boolean, ["Unknown error"].  A body that fails to parse is
    replaced by the empty object, so its message is ["{}"]. *)
Theorem message_derivation statusCode data error detail non_field_errors :
  get data "error" = Normal error ->
  get data "detail" = Normal detail ->
  get data "non_field_errors" = Normal non_field_errors ->
  (forall s, error = Some (JString s) -> derives statusCode data s) /\
  (is_string error = false ->
   (forall s, detail = Some (JString s) -> derives statusCode data s) /\
   (is_string detail = false ->
    (forall first rest s,
       non_field_errors = Some (JArray (first :: rest)) ->
       String_ first = Normal s -> derives statusCode data s) /\
    (nonempty_array non_field_errors = false ->
     (typeof data = T_object -> derives statusCode data (JSON_stringify data)) /\
     (typeof data <> T_object -> derives statusCode data "Unknown error")))) /\
  (forall h this options r t,
     receives h this options r -> ok r = false -> json r = Throw t ->
     exists e, snd (request h this options) = Throw (ThrowSdk e) /\ message e = "{}").
Proof.
  intros He Hd Hn.
  assert (step : forall m, handleError_message data = Normal m -> derives statusCode data m)
    by (intros; now apply handleError_keeps_message).
  split; [|split].
  - intros s ->. apply step. unfold handleError_message. rewrite He. reflexivity.
  - intros Es. split.
    + intros s ->. apply step. unfold handleError_message. rewrite He. cbn [bind].
      rewrite Hd. cbn [bind]. destruct error as [[]|]; try reflexivity; discriminate.
    + intros Ds.
      assert (rest_of : handleError_message data =
                        match non_field_errors with
                        | Some (JArray (first :: _)) => String_ first
                        | _ => if JsType_eqb (typeof data) T_object
                               then Normal (JSON_stringify data)
                               else Normal "Unknown error"
                        end).
      { unfold handleError_message. rewrite He. cbn [bind]. rewrite Hd. cbn [bind].
        rewrite Hn. cbn [bind].
        destruct error as [[]|]; try discriminate;
          destruct detail as [[]|]; try discriminate; reflexivity. }
      split.
      * intros first rest s -> Hs. apply step. rewrite rest_of. exact Hs.
      * intros Hne. split.
        -- intros Ht. apply step. rewrite rest_of, Ht. cbn [JsType_eqb].
           destruct non_field_errors as [[| | | |[|]|]|]; try reflexivity; discriminate.
        -- intros Ht. apply step. rewrite rest_of.
           destruct (typeof data); try congruence;
             destruct non_field_errors as [[| | | |[|]|]|]; try reflexivity; discriminate.
  - intros h this options r t Hr Hok Hj.
    rewrite (request_received _ _ _ _ Hr), Hok, Hj.
    destruct (handleError_keeps_message (status r) (JObject []) "{}" eq_refl)
      as (e & -> & Hm).
    eauto.
Qed.

Lemma message_derivation_witness :
  derives 400 (JObject [("error", JNumber 7); ("detail", JString "Slot taken")])
    "Slot taken".
Proof.
  refine (proj1 (proj1 (proj2
    (message_derivation 400
       (JObject [("error", JNumber 7); ("detail", JString "Slot taken")])
       (Some (JNumber 7)) (Some (JString "Slot taken")) None
       eq_refl eq_refl eq_refl)) eq_refl) "Slot taken" eq_refl).
Defined.

(** *** Status codes and kinds *)

(** X1: Whenever the message derivation completes, [handleError] follows the
    mapping table: 401, 404 and 400 have classes of their own, every other
    status code gives the base class with that code and the body attached,
    which for 408 is the shape of a timeout. *)
Theorem status_mapping code data m :
  handleError_message data = Normal m ->
  exists e,
    handleError code data = Normal e /\ message e = m /\
    (code = 401 -> kind_of e = AuthenticationFailed) /\
    (code = 404 -> kind_of e = NotFound) /\
    (code = 400 ->
     kind_of e = SlotNotAvailable \/ kind_of e = UserNotFound \/ kind_of e = Validation) /\
    (code = 408 -> kind_of e = RequestTimeout) /\
    (code <> 401 -> code <> 404 -> code <> 400 ->
     cls e = C_MatchEngineError /\ statusCode e = Some code /\
     responseData e = Some data /\ (code <> 408 -> kind_of e = Generic)).
Proof.
  intros H. rewrite (handleError_from_message code _ _ H). eexists. split; [reflexivity|].
  destruct (Z.eqb_spec code 401) as [->|N401]; [repeat split; intros; (reflexivity || lia)|].
  destruct (Z.eqb_spec code 404) as [->|N404]; [repeat split; intros; (reflexivity || lia)|].
  destruct (Z.eqb_spec code 400) as [->|N400].
  - destruct (includes (toLowerCase m) "not available");
      [|destruct (includes (toLowerCase m) "user" && includes (toLowerCase m) "not found")];
      repeat split; intros; try lia; auto.
  - repeat split; intros; try lia; try reflexivity.
    + subst code. reflexivity.
    + unfold kind_of. cbn. destruct (Z.eqb_spec code 408); [lia|reflexivity].
Qed.

Lemma status_mapping_witness :
  exists e,
    handleError 503 (JObject [("detail", JString "Down for maintenance")]) = Normal e /\
    kind_of e = Generic /\ statusCode e = Some 503.
Proof.
  destruct (status_mapping 503 (JObject [("detail", JString "Down for maintenance")])
              "Down for maintenance" eq_refl)
    as (e & He & _ & _ & _ & _ & _ & Hg).
  exists e. split; [exact He|].
  destruct Hg as (_ & Hs & _ & Hk); try lia. split; [apply Hk; lia|exact Hs].
Defined.

(** X2: On a 400 whose message derivation completes, the message is searched,
    lower-cased, for ["not available"], then for ["user"] with ["not found"];
    what is left is a [ValidationError] with the body attached and no field
    errors. *)
Theorem bad_request_classification data m :
  handleError_message data = Normal m ->
  (includes (toLowerCase m) "not available" = true ->
   handleError 400 data = Normal (SlotNotAvailableError (Some m))) /\
  (includes (toLowerCase m) "not available" = false ->
   includes (toLowerCase m) "user" = true ->
   includes (toLowerCase m) "not found" = true ->
   handleError 400 data = Normal (UserNotFoundError (Some m))) /\
  (includes (toLowerCase m) "not available" = false ->
   includes (toLowerCase m) "user" && includes (toLowerCase m) "not found" = false ->
   exists e,
     handleError 400 data = Normal e /\ kind_of e = Validation /\ message e = m /\
     responseData e = Some data /\ fieldErrors e = None).
Proof.
  intros H. rewrite (handleError_from_message 400 _ _ H). cbn [Z.eqb Pos.eqb].
  repeat split.
  - intros ->. reflexivity.
  - intros -> -> ->. reflexivity.
  - intros -> ->. eexists. repeat split.
Qed.

Lemma bad_request_classification_witness :
  handleError 400 (JObject [("error", JString "Slot is not available for booking")])
  = Normal (SlotNotAvailableError (Some "Slot is not available for booking")).
Proof.
  exact (proj1 (bad_request_classification
                  (JObject [("error", JString "Slot is not available for booking")])
                  "Slot is not available for booking" eq_refl) eq_refl).
Defined.

Example bad_request_user_not_found :
  handleError 400 (JObject [("detail", JString "User not found for external id")])
  = Normal (UserNotFoundError (Some "User not found for external id")).
Proof. reflexivity. Qed.

(** C2: a 401 whose body is the JSON text [null].  Reading [data.error]
    throws, the [catch] of [request] wraps the engine's [TypeError], and the
    caller gets a base error without status code where the mapping table
    promises an authentication failure. *)
Lemma null_body_on_401 :
  exists e,
    snd (request (example_host (answers 401 (Normal JNull))) example_client
           (GET "/client/users/lookup/" (Some [("external_id", "u-1")]) None))
    = Throw (ThrowSdk e) /\
    kind_of e = Generic /\ statusCode e = None /\ responseData e = None.
Proof. eexists. repeat split. Qed.

(** C3: a 400 whose body is the JSON text [null] is not classified at all:
    [handleError] throws before it looks at the status code. *)
Lemma null_body_on_400 :
  handleError 400 JNull = Throw (TypeError_read_null "error") /\
  exists e,
    snd (request (example_host (answers 400 (Normal JNull))) example_client
           (POST "/bookings/" (Some (JObject [("notes", JString "")])) None))
    = Throw (ThrowSdk e) /\
    kind_of e = Generic /\ statusCode e = None /\ responseData e = None.
Proof. split; [reflexivity|]. eexists. repeat split. Qed.


Lemma String_throws : forall v t, String_ v = Throw t -> t = TypeError_to_primitive.
Proof.
  fix IH 1. intros [| [] | n | s | items | fields] t; cbn [String_]; try discriminate.
  - match goal with
    | |- context [bind (?each items)] =>
        assert (H : forall t', each items = Throw t' -> t' = TypeError_to_primitive)
    end.
    { clear t. induction items as [|x items IHitems]; [discriminate|].
      intros t'.
      assert (Hx : forall t'', String_ x = Throw t'' -> t'' = TypeError_to_primitive)
        by apply IH.
      destruct x as [| b | n | s | xs | fs];
        try (destruct (String_ _) as [sx|tx] eqn:E; cbn [bind];
             [|intros [= <-]; now apply Hx]);
        cbn [bind];
        match goal with
        | |- context [bind (?e items)] => destruct (e items) as [ss|ts] eqn:E'
        end; cbn [bind]; try discriminate; intros [= <-]; now apply IHitems. }
    match goal with
    | |- context [bind (?each items)] => destruct (each items) as [parts|t'] eqn:E
    end; cbn [bind]; [discriminate|]. intros [= <-]. now apply H.
  - destruct (own fields "toString"); [|discriminate]. now intros [= <-].
Qed.

Lemma handleError_throws_TypeError statusCode data t :
  handleError statusCode data = Throw t -> exists m, t = ThrowError "TypeError" m.
Proof.
  unfold handleError. destruct (handleError_message data) as [m|t'] eqn:E;
    cbn [bind]; [discriminate|]. intros [= <-].
  unfold handleError_message in E.
  destruct data as [| b | n | s | items | fields]; cbn [get bind typeof JsType_eqb] in E;
    try discriminate.
  - injection E as E. rewrite <- E. eexists. reflexivity.
  - destruct (own fields "error") as [[]|]; try discriminate;
    destruct (own fields "detail") as [[]|]; try discriminate;
    destruct (own fields "non_field_errors") as [[| | | |[|first rest]|]|];
    try discriminate;
    rewrite (String_throws _ _ E); eexists; reflexivity.
Qed.

Lemma UserNotFoundError_only_on_400 code data e :
  handleError code data = Normal e -> kind_of e = UserNotFound ->
  code = 400 /\
  includes (toLowerCase (message e)) "not available" = false /\
  includes (toLowerCase (message e)) "user" = true /\
  includes (toLowerCase (message e)) "not found" = true /\
  statusCode e = Some 404.
Proof.
  intros H K.
  pose proof (handleError_message_of _ _ _ H) as Hm.
  rewrite (handleError_from_message code _ _ Hm) in H.
  destruct (Z.eqb_spec code 401); [injection H as H; rewrite <- H in K; discriminate|].
  destruct (Z.eqb_spec code 404); [injection H as H; rewrite <- H in K; discriminate|].
  destruct (Z.eqb_spec code 400);
    [|injection H as H; rewrite <- H in K; unfold kind_of in K; cbn in K;
      destruct (code =? 408); discriminate].
  destruct (includes (toLowerCase (message e)) "not available") eqn:Ea;
    [injection H as H; rewrite <- H in K; discriminate|].
  destruct (includes (toLowerCase (message e)) "user") eqn:Eu;
    [|injection H as H; rewrite <- H in K; discriminate].
  destruct (includes (toLowerCase (message e)) "not found") eqn:En;
    [|injection H as H; rewrite <- H in K; discriminate].
  injection H as H. rewrite <- H. auto.
Qed.

(** What [request] makes of a response that is not a 2xx. *)
Lemma request_received_error h this options r :
  receives h this options r -> ok r = false ->
  exists e,
    snd (request h this options) = Throw (ThrowSdk e) /\
    match handleError (status r)
            (match json r with Normal v => v | Throw _ => JObject [] end) with
    | Normal e' => e = e'
    | Throw _ => kind_of e = Generic /\ statusCode e = None /\ responseData e = None
    end.
Proof.
  intros Hr Hok. rewrite (request_received _ _ _ _ Hr), Hok.
  destruct (handleError (status r) _) as [e|t] eqn:E.
  - exists e. split; reflexivity.
  - destruct (handleError_throws_TypeError _ _ _ E) as [m ->].
    eexists. split; [reflexivity|]. repeat split.
Qed.


(** ** Timeouts *)

Ltac absent :=
  let H := fresh in
  cbn; intros H; repeat (destruct H as [H|H]; [discriminate|]); exact H.

Ltac present := cbn; repeat (first [left; reflexivity | right]).

(** C5: an exchange that takes longer than the configured duration is not
    cut short when the delay lies in the body.  The headers arrive after
    10 ms and the body after 50 s more; the timeout is 30 s.  The timer is
    cleared as soon as the promise of [fetch] settles, although
    [response.json()] is awaited inside the same [try], whose [catch] turns
    an [AbortError] into the 408: nothing is aborted and the body is
    delivered. *)
Lemma slow_body_is_delivered :
  exchange_of (example_host (slow_body (JArray []))) example_client
    (GET "/bookings/" None None) = Some (slow_body (JArray [])) /\
  cfg_timeoutMs (config example_client) < exchange_ms (slow_body (JArray [])) /\
  snd (request (example_host (slow_body (JArray []))) example_client
         (GET "/bookings/" None None)) = Normal (JArray []) /\
  ~ In AbortFetch (fst (request (example_host (slow_body (JArray []))) example_client
                     (GET "/bookings/" None None))).
Proof.
  repeat split.
  vm_compute. intros [H|[H|[H|[]]]]; discriminate.
Qed.

(** What the timer does bound is the wait for the headers: when it comes
    due before the promise of [fetch] has settled, [request] aborts the
    fetch, clears the timer and rejects with the base error
    ["Request timeout"], status code 408, no payload; when that promise
    settles first the timer is cleared and nothing is aborted, however long
    the body takes. *)
Theorem request_timeout h this options x :
  exchange_of h this options = Some x ->
  (timer_delay h (cfg_timeoutMs (config this)) <= fetch_ms x ->
   exists href e,
     request h this options =
     ([SetTimeout (cfg_timeoutMs (config this)); Fetch href (request_init this options);
       AbortFetch; ClearTimeout],
      Throw (ThrowSdk e)) /\
     e = MatchEngineError "Request timeout" (Some (mkErrorOptions (Some 408) None)) /\
     kind_of e = RequestTimeout /\ statusCode e = Some 408 /\ responseData e = None) /\
  (fetch_ms x < timer_delay h (cfg_timeoutMs (config this)) ->
   ~ In AbortFetch (fst (request h this options)) /\
   In ClearTimeout (fst (request h this options))).
Proof.
  intros Hx. destruct (exchange_of_fetch _ _ _ _ Hx) as (href & Hhref & Hfetch & Htry).
  unfold request. rewrite Hhref. cbv zeta. rewrite Htry.
  unfold request_try. rewrite Hfetch. split.
  - intros Hdue. apply Z.leb_le in Hdue. rewrite Hdue.
    exists href. eexists. repeat split.
  - intros Hfirst. apply Z.leb_gt in Hfirst. rewrite Hfirst.
    destruct (fetched x) as [r|t].
    + destruct (ok r); cbn [negb].
      * destruct (json r); (split; [absent|present]).
      * destruct (handleError (status r) _); (split; [absent|present]).
    + split; [absent|present].
Qed.

Lemma request_timeout_witness :
  exists href e,
    request (example_host silence) example_client (GET "/bookings/" None None) =
    ([SetTimeout 30000;
      Fetch href (request_init example_client (GET "/bookings/" None None));
      AbortFetch; ClearTimeout],
     Throw (ThrowSdk e)) /\
    e = MatchEngineError "Request timeout" (Some (mkErrorOptions (Some 408) None)) /\
    kind_of e = RequestTimeout /\ statusCode e = Some 408 /\ responseData e = None.
Proof.
  refine (proj1 (request_timeout (example_host silence) example_client
                   (GET "/bookings/" None None) silence eq_refl) _).
  vm_compute. discriminate.
Defined.

(** ** Bodies that do not parse *)

(** C10: a 2xx response whose body fails to parse makes [request] reject with
    a base [MatchEngineError] that carries the parser's message, no status
    code and no payload. *)
Theorem success_body_parse_failure h this options r m :
  receives h this options r ->
  ok r = true ->
  json r = Throw (ThrowError "SyntaxError" m) ->
  exists e,
    snd (request h this options) = Throw (ThrowSdk e) /\
    e = MatchEngineError m None /\
    cls e = C_MatchEngineError /\ kind_of e = Generic /\ message e = m /\
    statusCode e = None /\ responseData e = None.
Proof.
  intros Hr Hok Hj. rewrite (request_received _ _ _ _ Hr), Hok, Hj.
  eexists. repeat split.
Qed.

Lemma example_receives status body options :
  data options = None ->
  receives (example_host (answers status body)) example_client options
    (mkResponse status 5 body).
Proof.
  intros Hdata. exists (answers status body). repeat split.
  unfold exchange_of, request_body. rewrite Hdata. reflexivity.
Qed.

Lemma success_body_parse_failure_witness :
  exists e,
    snd (request (example_host (answers 200 (Throw SyntaxError))) example_client
           (GET "/bookings/" None None)) = Throw (ThrowSdk e) /\
    e = MatchEngineError "Unexpected end of JSON input" None /\
    cls e = C_MatchEngineError /\ kind_of e = Generic /\
    message e = "Unexpected end of JSON input" /\
    statusCode e = None /\ responseData e = None.
Proof.
  exact (success_body_parse_failure
           (example_host (answers 200 (Throw SyntaxError))) example_client
           (GET "/bookings/" None None) (mkResponse 200 5 (Throw SyntaxError))
           "Unexpected end of JSON input"
           (example_receives 200 (Throw SyntaxError) (GET "/bookings/" None None) eq_refl)
           eq_refl eq_refl).
Defined.

(** ** Propagation of errors *)

Section Propagation.

Variable send : RequestOptions -> Async value.

Lemma run_Await options k :
  snd (run send (Await options k)) = snd (run send (k (snd (send options)))).
Proof.
  cbn [run]. destruct (send options) as [effects c]. cbn [snd].
  destruct (run send (k c)). reflexivity.
Qed.

(** An operation that propagates fails with the very error of the first of
    its requests that fails. *)
Lemma propagates_run p t :
  propagates p -> In (Throw t) (outcomes send p) -> snd (run send p) = Throw t.
Proof.
  induction 1 as [c|options k Hthrow Hnormal IH]; cbn [outcomes].
  - intros [].
  - rewrite run_Await. intros [Hc|Hin].
    + rewrite Hc, Hthrow. reflexivity.
    + destruct (snd (send options)) as [v|t'].
      * now apply IH.
      * rewrite Hthrow in Hin. destruct Hin.
Qed.

(** What a lookup makes of the outcome of its request. *)
Lemma lookup_run options t :
  snd (send options) = Throw t ->
  snd (run send (Await options lookup_catch)) =
  if instanceof t C_NotFoundError then Normal JNull else Throw t.
Proof.
  intros H. rewrite run_Await, H. cbn [lookup_catch].
  destruct (instanceof t C_NotFoundError); reflexivity.
Qed.

End Propagation.

Create HintDb propagation.
#[local] Hint Constructors propagates : propagation.

Ltac propagation :=
  repeat first
    [ apply propagates_Settle
    | apply propagates_Await; [intros; reflexivity | intros]
    | progress cbn [attempt forward]
    | match goal with
      | |- propagates (attempt ?c _) => destruct c
      | |- propagates (match ?c with _ => _ end) => destruct c
      | |- propagates (if ?c then _ else _) => destruct c
      end ].

Lemma forward_propagates options : propagates (forward options).
Proof. unfold forward. auto with propagation. Qed.

Lemma getVenue_propagates venueId : propagates (getVenue venueId).
Proof. unfold getVenue. propagation. Qed.

Lemma getVenueBySlug_propagates slug : propagates (getVenueBySlug slug).
Proof.
  unfold getVenueBySlug. apply propagates_Await; [reflexivity|]. intros response.
  cbn [attempt].
  destruct (results <- get response "results" ;; _) as [[venue|]|]; cbn [attempt].
  - destruct (get venue "id"); cbn [attempt]; [apply getVenue_propagates|constructor].
  - constructor.
  - constructor.
Qed.

Lemma createBooking_propagates h options : propagates (createBooking h options).
Proof. unfold createBooking. propagation. Qed.

Lemma listBookings_propagates options : propagates (listBookings options).
Proof. unfold listBookings. propagation. Qed.

Lemma other_operations_propagate h call :
  is_lookup call = false -> propagates (operation h call).
Proof.
  destruct call; cbn [is_lookup operation]; try discriminate; intros _;
    try apply forward_propagates.
  - apply getVenueBySlug_propagates.
  - apply createBooking_propagates.
  - apply listBookings_propagates.
Qed.

Lemma lookup_operation h call :
  is_lookup call = true -> exists options, operation h call = Await options lookup_catch.
Proof.
  destruct call; cbn [is_lookup operation]; try discriminate; intros _;
    eexists; reflexivity.
Qed.



Example lookup_lets_a_401_through :
  exists e,
    snd (perform (example_host (answers 401 (Normal (JObject []))))
           example_client (LookupUser "user-1")) = Throw (ThrowSdk e) /\
    kind_of e = AuthenticationFailed.
Proof. eexists. split; reflexivity. Qed.

(** ** Listing bookings *)

(** C8: [listBookings] returns a response that is a list as it is, returns
    the [results] member of a response that is an object holding one, and
    returns the empty list for an object without [results]. *)
Theorem listBookings_normalization send options response :
  snd (send (listBookings_request options)) = Normal response ->
  (forall items, response = JArray items ->
     snd (run send (listBookings options)) = Normal response) /\
  (forall fields results,
     response = JObject fields -> own fields "results" = Some results ->
     results <> JNull ->
     snd (run send (listBookings options)) = Normal results) /\
  (forall fields,
     response = JObject fields -> own fields "results" = None ->
     snd (run send (listBookings options)) = Normal (JArray [])).
Proof.
  intros Hsend. unfold listBookings. rewrite run_Await, Hsend. cbn [attempt].
  repeat split.
  - intros items ->. reflexivity.
  - intros fields results -> Hown Hnn. cbn [isArray get attempt]. rewrite Hown.
    destruct results; try reflexivity. congruence.
  - intros fields -> Hown. cbn [isArray get attempt]. rewrite Hown. reflexivity.
Qed.

Lemma listBookings_normalization_witness :
  snd (perform
         (example_host
            (answers 200
               (Normal (JObject [("count", JNumber 1);
                                 ("next", JNull);
                                 ("previous", JNull);
                                 ("results", JArray [JObject [("id", JNumber 12)]])]))))
         example_client (ListBookings None))
  = Normal (JArray [JObject [("id", JNumber 12)]]).
Proof.
  refine (proj1 (proj2 (listBookings_normalization
    (request
       (example_host
          (answers 200
             (Normal (JObject [("count", JNumber 1);
                               ("next", JNull);
                               ("previous", JNull);
                               ("results", JArray [JObject [("id", JNumber 12)]])]))))
       example_client)
    None _ eq_refl)) _ _ eq_refl eq_refl _).
  discriminate.
Defined.

(** ** Cleaning up and typing what [request] throws *)

(** X10: Once the URL has parsed, every path through [request] clears the
    timer, the one on which the data does not serialise included. *)
Theorem timer_always_cleared h this options href :
  href_of h this options = Some href ->
  In ClearTimeout (fst (request h this options)).
Proof.
  intros Hhref. pose proof (request_effects h this options) as H.
  rewrite Hhref in H. destruct (request_body options).
  - destruct H as (rest & -> & _ & Hclear). now do 2 right.
  - rewrite H. present.
Qed.

Lemma timer_always_cleared_witness :
  In ClearTimeout
     (fst (request (example_host silence) example_client (GET "/venues/" None None))).
Proof.
  exact (timer_always_cleared (example_host silence) example_client
           (GET "/venues/" None None) _ eq_refl).
Defined.

(** ** Dates *)

Lemma digits_run d rest :
  all_digits d = true -> stops_digits rest -> digits (d ++ rest) = (d, rest).
Proof.
  induction d as [|c d IH]; cbn [append all_digits digits].
  - intros _ H. destruct rest as [|c rest]; [reflexivity|].
    cbn [digits]. cbn in H. rewrite H. reflexivity.
  - intros H Hr. apply andb_true_iff in H. destruct H as [Hc Hd].
    rewrite Hc, (IH Hd Hr). reflexivity.
Qed.

Lemma digits_all d : all_digits d = true -> digits d = (d, "").
Proof.
  intros H. pose proof (digits_run d "" H I) as R.
  replace (d ++ "") with d in R; [exact R|].
  clear. induction d; cbn; congruence.
Qed.

Lemma group_or_nonempty s fallback : s <> "" -> group_or (Some s) fallback = s.
Proof. destruct s; [congruence|reflexivity]. Qed.

(** X23: The fallback rewrites an offset text with hours and minutes, such as
    [GMT+5:30], into sign, two digits, a colon and two digits. *)
Theorem formatOffset_hours_minutes (sign : string) (hours minutes : string) :
  sign = "+" \/ sign = "-" ->
  hours <> "" -> all_digits hours = true ->
  minutes <> "" -> all_digits minutes = true ->
  formatOffset ("GMT" ++ sign ++ hours ++ ":" ++ minutes)
  = sign ++ pad2 hours ++ ":" ++ pad2 minutes.
Proof.
  intros Hs Hh Dh Hm Dm. unfold formatOffset, match_offset.
  assert (R : digits (hours ++ String ":" minutes) = (hours, String ":" minutes))
    by (apply digits_run; [exact Dh|reflexivity]).
  destruct Hs as [-> | ->]; cbn [append after_GMT]; rewrite R; cbn [append];
    rewrite (digits_all _ Dm); cbn [fst];
    destruct hours as [|h hs]; try congruence;
    destruct minutes as [|m ms]; try congruence; reflexivity.
Qed.

Lemma formatOffset_hours_minutes_witness : formatOffset "GMT+5:30" = "+05:30".
Proof.
  refine (formatOffset_hours_minutes "+" "5" "30" (or_introl eq_refl) _ eq_refl _ eq_refl);
    discriminate.
Defined.

Example formatOffset_zero : formatOffset "GMT" = "+00:00".
Proof. reflexivity. Qed.

Example formatOffset_whole_hour : formatOffset "GMT-3" = "-03:00".
Proof. reflexivity. Qed.

(** With [luxon] installed and producing a text, that text is the result as
    it stands; in every other case the result is the fallback's. *)
Lemma formatDateTimeWithTimezone_paths h date timezone :
  (forall toISO iso,
     luxon_toISO h = Some toISO -> toISO date timezone = Normal (Some iso) ->
     formatDateTimeWithTimezone h date timezone = Normal iso) /\
  (luxon_toISO h = None ->
   formatDateTimeWithTimezone h date timezone = fallbackFormatDateTime h date timezone).
Proof.
  unfold formatDateTimeWithTimezone. split.
  - intros toISO iso -> ->. reflexivity.
  - intros ->. reflexivity.
Qed.

Example fallback_berlin_winter :
  formatDateTimeWithTimezone (example_host silence) 1736931600000 "Europe/Berlin"
  = Normal "2025-01-15T10:00:00+01:00".
Proof. reflexivity. Qed.

Example formatDate_example : formatDate (example_host silence) 1736931600000 = "2025-01-15".
Proof. reflexivity. Qed.

(** The text [luxon] produces is returned as it stands, whatever its form. *)
Lemma luxon_text_is_returned h toISO date timezone iso :
  luxon_toISO h = Some toISO -> toISO date timezone = Normal (Some iso) ->
  formatDateTimeWithTimezone h date timezone = Normal iso.
Proof. unfold formatDateTimeWithTimezone. now intros -> ->. Qed.

Lemma part_or_assoc parts type fallback :
  part_or parts type fallback =
  match assoc parts type with
  | Some v => v
  | None => fallback
  end.
Proof.
  induction parts as [|[t v] parts IH]; [reflexivity|]. cbn [part_or assoc].
  now destruct (String.eqb t type).
Qed.

(** The year of the fallback is the formatter's [year] field, at whatever
    width it has. *)
Lemma fallback_year_is_not_padded h date timezone parts offsetParts year :
  Intl_dateTimeParts h timezone date = Normal parts ->
  Intl_offsetParts h timezone date = Normal offsetParts ->
  assoc parts "year" = Some year ->
  exists rest, fallbackFormatDateTime h date timezone = Normal (year ++ "-" ++ rest).
Proof.
  intros Hp Ho Hy. unfold fallbackFormatDateTime. rewrite Hp. cbn [bind]. rewrite Ho.
  cbn [bind]. rewrite (part_or_assoc parts "year"), Hy. eexists. reflexivity.
Qed.

(** C4: the formatter leaves the form [YYYY-MM-DDTHH:mm:ss+HH:MM] on the
    documented platform.  With [luxon] installed, an instant that has
    milliseconds keeps them ([suppressMilliseconds] only drops a zero
    count), and the zone [UTC] prints [Z] for its offset; on both inputs the
    fallback gives the form asked for, so the two paths disagree.  Without
    [luxon], the year 999 is printed with three digits.  At a whole second
    in Berlin or Kolkata the two paths agree on the form. *)
Theorem formatter_leaves_the_form :
  (formatDateTimeWithTimezone (documented_host true) morning_123 "Europe/Berlin"
   = Normal "2025-01-15T10:00:00.123+01:00" /\
   exact_form "2025-01-15T10:00:00.123+01:00" = false /\
   fallbackFormatDateTime (documented_host true) morning_123 "Europe/Berlin"
   = Normal "2025-01-15T10:00:00+01:00") /\
  (formatDateTimeWithTimezone (documented_host true) morning "UTC"
   = Normal "2025-01-15T09:00:00Z" /\
   exact_form "2025-01-15T09:00:00Z" = false /\
   fallbackFormatDateTime (documented_host true) morning "UTC"
   = Normal "2025-01-15T09:00:00+00:00") /\
  (formatDateTimeWithTimezone (documented_host false) year_999 "UTC"
   = Normal "999-01-15T10:00:00+00:00" /\
   exact_form "999-01-15T10:00:00+00:00" = false) /\
  (forall luxon zone,
     zone = "Europe/Berlin" \/ zone = "Asia/Kolkata" ->
     exists s,
       formatDateTimeWithTimezone (documented_host luxon) morning zone = Normal s /\
       fallbackFormatDateTime (documented_host luxon) morning zone = Normal s /\
       exact_form s = true).
Proof.
  repeat split.
  intros luxon zone [-> | ->]; destruct luxon; eexists; repeat split.
Qed.

(** The texts reach the server as they are. *)
Example createBooking_sends_milliseconds :
  exists href init,
    fst (perform (documented_host true) example_client
           (CreateBooking {| book_resourceExternalId := "court-7";
                             book_userExternalId := "user-1";
                             book_startDatetime := morning_123;
                             book_endDatetime := morning_123;
                             book_timezone := "Europe/Berlin";
                             book_participantCount := None;
                             book_notes := None |}))
    = [SetTimeout 30000; Fetch href init; AbortFetch; ClearTimeout] /\
    option_map (fun body => includes body "2025-01-15T10:00:00.123+01:00") (init_body init)
    = Some true.
Proof. do 2 eexists. split; reflexivity. Qed.

(** * Further properties of the code *)

(** ** [request] *)

Lemma request_rejects_typed_witness :
  (exists e,
     ThrowSdk (MatchEngineError "fetch failed" None) = ThrowSdk e) \/
  href_of (example_host (mkExchange 12 (Throw (ThrowError "TypeError" "fetch failed"))))
    example_client (GET "/venues/" None None) = None.
Proof.
  exact (request_rejects_typed
           (example_host (mkExchange 12 (Throw (ThrowError "TypeError" "fetch failed"))))
           example_client (GET "/venues/" None None)
           (ThrowSdk (MatchEngineError "fetch failed" None)) eq_refl).
Defined.

(** X5: [request] resolves exactly when it received a 2xx response whose body
    parsed, and then with that body as it is. *)
Theorem request_resolves_iff h this options v :
  snd (request h this options) = Normal v <->
  exists r, receives h this options r /\ ok r = true /\ json r = Normal v.
Proof.
  split.
  - unfold request, receives, exchange_of, request_attempt.
    destruct (href_of h this options) as [href|]; [|discriminate].
    destruct (request_body options) as [body|t]; [|discriminate].
    cbv zeta. unfold request_try.
    destruct (timer_delay h _ <=? fetch_ms _) eqn:Hdue; [discriminate|].
    destruct (fetched _) as [r|t] eqn:Hf; [|discriminate].
    destruct (ok r) eqn:Hok; cbn [negb].
    + destruct (json r) as [w|t] eqn:Hj; cbn [snd]; [|discriminate].
      intros [= <-]. exists r. split; [|auto].
      eexists. split; [reflexivity|]. split; [now apply Z.leb_gt|exact Hf].
    + destruct (handleError (status r) _); discriminate.
  - intros (r & Hr & Hok & Hj). rewrite (request_received _ _ _ _ Hr), Hok, Hj.
    reflexivity.
Qed.

(** X7: A failure of [fetch] other than an abort (DNS, connection, TLS) comes
    out as a base [MatchEngineError] with the failure's message, no status
    code and no payload. *)
Theorem network_failure_is_wrapped h this options x ename emessage :
  exchange_of h this options = Some x ->
  fetch_ms x < timer_delay h (cfg_timeoutMs (config this)) ->
  fetched x = Throw (ThrowError ename emessage) ->
  ename <> "AbortError" ->
  snd (request h this options) = Throw (ThrowSdk (MatchEngineError emessage None)) /\
  kind_of (MatchEngineError emessage None) = Generic /\
  statusCode (MatchEngineError emessage None) = None.
Proof.
  intros Hx Hms Hf Hn.
  destruct (exchange_of_fetch _ _ _ _ Hx) as (href & Hhref & Hfetch & Htry).
  unfold request. rewrite Hhref. cbv zeta. rewrite Htry.
  unfold request_try. rewrite Hfetch.
  apply Z.leb_gt in Hms. rewrite Hms, Hf. cbn [snd request_catch].
  apply String.eqb_neq in Hn. rewrite Hn. repeat split.
Qed.

Lemma network_failure_is_wrapped_witness :
  snd (request
         (example_host (mkExchange 12 (Throw (ThrowError "TypeError" "fetch failed"))))
         example_client (GET "/venues/" None None))
  = Throw (ThrowSdk (MatchEngineError "fetch failed" None)) /\
  kind_of (MatchEngineError "fetch failed" None) = Generic /\
  statusCode (MatchEngineError "fetch failed" None) = None.
Proof.
  refine (network_failure_is_wrapped
            (example_host (mkExchange 12 (Throw (ThrowError "TypeError" "fetch failed"))))
            example_client (GET "/venues/" None None)
            (mkExchange 12 (Throw (ThrowError "TypeError" "fetch failed")))
            "TypeError" "fetch failed" eq_refl eq_refl eq_refl _).
  discriminate.
Defined.

(** X8: One call of [request] whose URL parses arms one timer.  When the
    data serialises it calls [fetch] once, with the init it built and that
    text as the body; whatever follows is an abort or a [clearTimeout]:
    nothing is retried.  When [JSON.stringify] throws on the data (a BigInt
    or a cycle in the caller's [externalData]) it calls [fetch] not at all,
    clears the timer and rejects with what was thrown, wrapped as any other
    failure inside the [try]. *)
Theorem request_fetches_once h this options href :
  href_of h this options = Some href ->
  (forall body, request_body options = Normal body ->
     exists rest,
       fst (request h this options) =
       SetTimeout (cfg_timeoutMs (config this))
         :: Fetch href (request_init this options) :: rest /\
       (forall e, In e rest -> e = AbortFetch \/ e = ClearTimeout) /\
       fetches (fst (request h this options)) = 1%nat /\
       init_body (request_init this options) = body) /\
  (forall t, request_body options = Throw t ->
     request h this options =
     ([SetTimeout (cfg_timeoutMs (config this)); ClearTimeout],
      Throw (ThrowSdk (request_catch t))) /\
     fetches (fst (request h this options)) = 0%nat).
Proof.
  intros Hhref. pose proof (request_effects h this options) as H.
  rewrite Hhref in H. split.
  - intros body Hbody. rewrite Hbody in H. destruct H as (rest & Heff & Hrest & _).
    exists rest. rewrite Heff. repeat split; [exact Hrest| |].
    + change (S (fetches rest) = 1%nat). now rewrite (fetches_quiet _ Hrest).
    + unfold request_init. cbn [init_body]. now rewrite Hbody.
  - intros t Ht. rewrite Ht in H. rewrite H. split; reflexivity.
Qed.

Lemma request_fetches_once_witness :
  request (example_host silence) example_client
    (POST_external "/client/venues/register/"
       [("external_id", JString "venue-1"); ("venue_id", JNumber 7)]
       "external_data"
       (Some (Throw (ThrowError "TypeError" "Do not know how to serialize a BigInt"))))
  = ([SetTimeout 30000; ClearTimeout],
     Throw (ThrowSdk (MatchEngineError "Do not know how to serialize a BigInt" None))) /\
  fetches
    (fst (request (example_host silence) example_client
            (POST_external "/client/venues/register/"
               [("external_id", JString "venue-1"); ("venue_id", JNumber 7)]
               "external_data"
               (Some (Throw (ThrowError "TypeError"
                               "Do not know how to serialize a BigInt"))))))
  = 0%nat.
Proof.
  exact (proj2 (request_fetches_once (example_host silence) example_client
                  (POST_external "/client/venues/register/"
                     [("external_id", JString "venue-1"); ("venue_id", JNumber 7)]
                     "external_data"
                     (Some (Throw (ThrowError "TypeError"
                                     "Do not know how to serialize a BigInt"))))
                  _ eq_refl)
           (ThrowError "TypeError" "Do not know how to serialize a BigInt") eq_refl).
Defined.

Example request_serialises_external_data :
  init_body
    (request_init example_client
       (POST_external "/client/venues/register/"
          [("external_id", JString "venue-1"); ("venue_id", JNumber 7)]
          "external_data" None))
  = Some ("{" ++ quote "external_id" ++ ":" ++ quote "venue-1" ++ ","
              ++ quote "venue_id" ++ ":7,"
              ++ quote "external_data" ++ ":{}}").
Proof. reflexivity. Qed.

(** X9: A URL that does not parse stops [request] before anything happens: the
    constructor's [TypeError] escapes as it is, and no timer is armed and no
    fetch made. *)
Theorem invalid_url_escapes h this options :
  href_of h this options = None ->
  fst (request h this options) = [] /\
  exists m, snd (request h this options) = Throw (ThrowError "TypeError" m) /\
            instanceof (ThrowError "TypeError" m) C_MatchEngineError = false.
Proof.
  unfold request. intros ->. split; [reflexivity|]. eexists. split; reflexivity.
Qed.

Lemma invalid_url_escapes_witness :
  fst (request urlless_host example_client (GET "/venues/" None None)) = [] /\
  exists m,
    snd (request urlless_host example_client (GET "/venues/" None None))
    = Throw (ThrowError "TypeError" m) /\
    instanceof (ThrowError "TypeError" m) C_MatchEngineError = false.
Proof.
  exact (invalid_url_escapes urlless_host example_client (GET "/venues/" None None) eq_refl).
Defined.

(** ** [handleError]: what the error carries *)

(** X4: The error returned for a response carries the response's status code,
    except a [UserNotFoundError], which says 404 on a 400; and it carries the
    body only when it is a [ValidationError] or of the base class: the four
    other classes drop it. *)
Theorem error_code_and_payload code data e :
  handleError code data = Normal e ->
  (statusCode e = Some code \/
   (code = 400 /\ cls e = C_UserNotFoundError /\ statusCode e = Some 404)) /\
  (match cls e with
   | C_ValidationError | C_MatchEngineError => responseData e = Some data
   | _ => responseData e = None
   end) /\
  fieldErrors e = None.
Proof.
  intros H. pose proof (handleError_message_of _ _ _ H) as Hm.
  rewrite (handleError_from_message code _ _ Hm) in H. injection H as H.
  rewrite <- H. clear H.
  destruct (Z.eqb_spec code 401) as [->|]; [repeat split; now left|].
  destruct (Z.eqb_spec code 404) as [->|]; [repeat split; now left|].
  destruct (Z.eqb_spec code 400) as [->|]; [|repeat split; now left].
  destruct (includes (toLowerCase (message e)) "not available");
    [repeat split; now left|].
  destruct (includes (toLowerCase (message e)) "user"
            && includes (toLowerCase (message e)) "not found");
    repeat split; auto.
Qed.

Lemma error_code_and_payload_witness :
  (statusCode (UserNotFoundError (Some "User not found")) = Some 400 \/
   (400 = 400 /\ cls (UserNotFoundError (Some "User not found")) = C_UserNotFoundError /\
    statusCode (UserNotFoundError (Some "User not found")) = Some 404)) /\
  (match cls (UserNotFoundError (Some "User not found")) with
   | C_ValidationError | C_MatchEngineError =>
       responseData (UserNotFoundError (Some "User not found"))
       = Some (JObject [("detail", JString "User not found")])
   | _ => responseData (UserNotFoundError (Some "User not found")) = None
   end) /\
  fieldErrors (UserNotFoundError (Some "User not found")) = None.
Proof.
  exact (error_code_and_payload 400 (JObject [("detail", JString "User not found")])
           (UserNotFoundError (Some "User not found")) eq_refl).
Defined.

Lemma handleError_message_completes_witness :
  exists m,
    handleError_message
      (JObject [("error", JString "E");
                ("non_field_errors", JArray [JObject [("toString", JNull)]])])
    = Normal m.
Proof.
  refine (proj2 (handleError_message_completes
                   (JObject [("error", JString "E");
                             ("non_field_errors",
                              JArray [JObject [("toString", JNull)]])]))
            (conj _ _)).
  - discriminate.
  - discriminate.
Defined.

Example unconvertible_first_element :
  handleError_message (JObject [("non_field_errors", JArray [JObject [("toString", JNull)]])])
  = Throw TypeError_to_primitive.
Proof. reflexivity. Qed.

(** ** The lookups, end to end *)

(** X14: A lookup answered with status 404 and a body whose message can be
    derived resolves to [null]. *)
Theorem lookup_404_is_null h this call options r m :
  operation h call = Await options lookup_catch ->
  receives h this options r ->
  status r = 404 ->
  handleError_message (match json r with Normal v => v | Throw _ => JObject [] end)
  = Normal m ->
  snd (perform h this call) = Normal JNull.
Proof.
  intros Hop Hr Hs Hm. unfold perform. rewrite Hop.
  rewrite run_Await, (request_received _ _ _ _ Hr).
  unfold ok. rewrite Hs. cbn [Z.leb Z.compare Pos.compare Pos.compare_cont andb].
  rewrite (handleError_from_message 404 _ _ Hm). reflexivity.
Qed.

Lemma lookup_404_is_null_witness :
  snd (perform (example_host (answers 404 (Throw SyntaxError))) example_client
         (LookupResource "court-7")) = Normal JNull.
Proof.
  refine (lookup_404_is_null
            (example_host (answers 404 (Throw SyntaxError))) example_client
            (LookupResource "court-7") _ (mkResponse 404 5 (Throw SyntaxError)) "{}"
            eq_refl
            (example_receives 404 (Throw SyntaxError) _ _)
            eq_refl eq_refl).
  reflexivity.
Defined.

(** X15: A lookup answered with status 400 and a message saying that the user was
    not found rejects with the [UserNotFoundError]: only a [NotFoundError],
    that is a 404, becomes [null]. *)
Theorem lookup_400_user_not_found_rejects h this call options r m :
  operation h call = Await options lookup_catch ->
  receives h this options r ->
  status r = 400 ->
  handleError_message (match json r with Normal v => v | Throw _ => JObject [] end)
  = Normal m ->
  includes (toLowerCase m) "not available" = false ->
  includes (toLowerCase m) "user" = true ->
  includes (toLowerCase m) "not found" = true ->
  snd (perform h this call) = Throw (ThrowSdk (UserNotFoundError (Some m))).
Proof.
  intros Hop Hr Hs Hm Ha Hu Hn. unfold perform. rewrite Hop.
  rewrite run_Await, (request_received _ _ _ _ Hr).
  unfold ok. rewrite Hs. cbn [Z.leb Z.compare Pos.compare Pos.compare_cont andb].
  rewrite (handleError_from_message 400 _ _ Hm).
  cbn [Z.eqb Pos.eqb]. rewrite Ha, Hu, Hn. reflexivity.
Qed.

Lemma lookup_400_user_not_found_rejects_witness :
  snd (perform
         (example_host (answers 400 (Normal (JObject [("error", JString "User not found")]))))
         example_client (LookupUser "user-9"))
  = Throw (ThrowSdk (UserNotFoundError (Some "User not found"))).
Proof.
  refine (lookup_400_user_not_found_rejects
            (example_host
               (answers 400 (Normal (JObject [("error", JString "User not found")]))))
            example_client (LookupUser "user-9") _
            (mkResponse 400 5 (Normal (JObject [("error", JString "User not found")])))
            "User not found" eq_refl
            (example_receives 400 _ _ _) eq_refl eq_refl eq_refl eq_refl eq_refl).
  reflexivity.
Defined.

(** ** Headers *)

Lemma assoc_set_own_same {A : Type} (fields : list (string * A)) key v :
  assoc (set_own fields key v) key = Some v.
Proof.
  induction fields as [|[k w] rest IH]; cbn [set_own assoc].
  - now rewrite String.eqb_refl.
  - destruct (String.eqb k key) eqn:E; cbn [assoc]; rewrite E; [reflexivity|exact IH].
Qed.

Lemma assoc_set_own_other {A : Type} (fields : list (string * A)) key key' v :
  key <> key' -> assoc (set_own fields key v) key' = assoc fields key'.
Proof.
  intros Hne. induction fields as [|[k w] rest IH]; cbn [set_own assoc].
  - apply String.eqb_neq in Hne. now rewrite Hne.
  - destruct (String.eqb_spec k key) as [->|Hk]; cbn [assoc].
    + apply String.eqb_neq in Hne. now rewrite Hne.
    + now rewrite IH.
Qed.

Lemma assoc_app {A : Type} (a b : list (string * A)) key :
  assoc (a ++ b)%list key =
  match assoc a key with
  | Some v => Some v
  | None => assoc b key
  end.
Proof.
  induction a as [|[k w] rest IH]; cbn [app assoc]; [reflexivity|].
  destruct (String.eqb k key); [reflexivity|exact IH].
Qed.

(** In [{...a, ...b}] a key has the value its last binding in [b] gives it,
    and the value it has in [a] when [b] does not bind it. *)
Lemma assoc_spread {A : Type} (a b : list (string * A)) key :
  assoc (spread a b) key =
  match assoc (rev b) key with
  | Some v => Some v
  | None => assoc a key
  end.
Proof.
  unfold spread. revert a. induction b as [|[k v] b IH]; intros a; cbn [fold_left rev].
  - reflexivity.
  - rewrite IH, assoc_app. cbn [fst snd assoc].
    destruct (assoc (rev b) key); [reflexivity|].
    destruct (String.eqb_spec k key) as [->|Hk].
    + apply assoc_set_own_same.
    + now apply assoc_set_own_other.
Qed.

(** X11: The headers of a request are the three fixed ones overlaid with the
    descriptor's: a header the descriptor names has the descriptor's value,
    any other keeps the fixed one. *)
Theorem descriptor_headers_win this options key :
  assoc (init_headers (request_init this options)) key =
  match assoc (rev (or_empty (headers options))) key with
  | Some v => Some v
  | None =>
      assoc [("Authorization", "Token " ++ cfg_apiToken (config this));
             ("Content-Type", "application/json");
             ("Accept", "application/json")] key
  end.
Proof. unfold request_init. cbn [init_headers]. apply assoc_spread. Qed.

(** ** What the public operations send *)

Section Effects.

Variable send : RequestOptions -> Async value.

Lemma run_effects options k :
  fst (run send (Await options k)) =
  (fst (send options) ++ fst (run send (k (snd (send options)))))%list.
Proof.
  cbn [run]. destruct (send options) as [effects c]. cbn [fst snd].
  destruct (run send (k c)). reflexivity.
Qed.

Lemma awaits_only_effects (P : RequestOptions -> Prop) (Q : Effect -> Prop) p :
  awaits_only P p ->
  (forall options e, P options -> In e (fst (send options)) -> Q e) ->
  forall e, In e (fst (run send p)) -> Q e.
Proof.
  intros Hp Hsend. induction Hp as [c|options k Ho Hk IH]; intros e.
  - intros [].
  - rewrite run_effects. intros Hin. apply in_app_or in Hin. destruct Hin as [Hin|Hin].
    + now apply (Hsend options).
    + now apply (IH (snd (send options))).
Qed.

Lemma fetches_app a b : fetches (a ++ b) = (fetches a + fetches b)%nat.
Proof. unfold fetches. now rewrite filter_app, length_app. Qed.

Lemma awaits_at_most_fetches n p :
  awaits_at_most n p ->
  (forall options, (fetches (fst (send options)) <= 1)%nat) ->
  (fetches (fst (run send p)) <= n)%nat.
Proof.
  intros Hp Hsend. induction Hp as [n c|n options k Hk IH].
  - cbn. lia.
  - rewrite run_effects, fetches_app.
    specialize (Hsend options). specialize (IH (snd (send options))). lia.
Qed.

End Effects.

Lemma request_effects_init h this options href init :
  In (Fetch href init) (fst (request h this options)) -> init = request_init this options.
Proof.
  pose proof (request_effects h this options) as H.
  destruct (href_of h this options) as [href'|]; [|rewrite H; intros []].
  destruct (request_body options).
  - destruct H as (rest & -> & Hrest & _).
    intros [H|[H|H]]; [discriminate|congruence|].
    destruct (Hrest _ H); discriminate.
  - rewrite H. intros [H'|[H'|[]]]; discriminate.
Qed.

Lemma request_fetches_le h this options :
  (fetches (fst (request h this options)) <= 1)%nat.
Proof.
  pose proof (request_effects h this options) as H.
  destruct (href_of h this options) as [href|]; [|rewrite H; cbn; lia].
  destruct (request_body options).
  - destruct H as (rest & -> & Hrest & _).
    change (S (fetches rest) <= 1)%nat. rewrite (fetches_quiet _ Hrest). lia.
  - rewrite H. cbn. lia.
Qed.

Ltac well_built :=
  unfold well_built, user_header_only; cbn;
  split; [first [left; reflexivity | right; eexists; reflexivity]
         |first [left; split; reflexivity | right; reflexivity]].

Ltac awaited :=
  repeat first
    [ apply awaits_only_Settle
    | apply awaits_only_Await; [try well_built | intros]
    | progress cbn [attempt forward]
    | match goal with
      | |- awaits_only _ (attempt ?c _) => destruct c
      | |- awaits_only _ (match ?c with _ => _ end) => destruct c
      | |- awaits_only _ (if ?c then _ else _) => destruct c
      end ].

Lemma getVenue_well_built venueId : awaits_only well_built (getVenue venueId).
Proof. unfold getVenue. awaited. Qed.

Lemma operations_well_built h call : awaits_only well_built (operation h call).
Proof.
  destruct call; cbn [operation];
    try (unfold registerUser, lookupUser, registerResource, lookupResource, listResources,
           registerVenue, lookupVenue, getVenueWithResources, listVenues,
           getAvailabilityById, getAvailability, createBooking, listBookings,
           listBookings_request, createPaymentIntent, cancelBooking, lookup_catch;
         awaited; fail).
  - unfold getVenueBySlug. apply awaits_only_Await; [well_built|]. intros c.
    destruct c as [response|t]; cbn [attempt]; [|constructor].
    destruct (results <- get response "results" ;; _) as [[venue|]|]; cbn [attempt];
      try constructor.
    destruct (get venue "id"); cbn [attempt]; [apply getVenue_well_built|constructor].
  - unfold getBooking. destruct (nonempty userExternalId); awaited.
Qed.

Lemma well_built_init this options :
  well_built options ->
  assoc (init_headers (request_init this options)) "Authorization"
  = Some ("Token " ++ cfg_apiToken (config this)) /\
  assoc (init_headers (request_init this options)) "Content-Type"
  = Some "application/json" /\
  assoc (init_headers (request_init this options)) "Accept" = Some "application/json" /\
  (init_method (request_init this options) = "GET" ->
   init_body (request_init this options) = None) /\
  (init_method (request_init this options) = "GET" \/
   init_method (request_init this options) = "POST").
Proof.
  intros [Hh Hm]. unfold request_init, request_body.
  cbn [init_headers init_method init_body].
  rewrite !assoc_spread.
  assert (Hx : forall key, key <> "X-User-External-ID" ->
                 assoc (rev (or_empty (headers options))) key = None).
  { intros key Hk. destruct Hh as [-> | [user ->]]; [reflexivity|].
    cbn [or_empty rev app assoc].
    destruct (String.eqb_spec "X-User-External-ID" key); congruence. }
  rewrite !Hx by discriminate. repeat split.
  - intros Hget. destruct Hm as [[_ ->]|Hp]; [reflexivity|congruence].
  - destruct Hm as [[-> _]| ->]; auto.
Qed.

(** X12: Every [fetch] made by a public operation carries the token as
    [Authorization] and JSON as [Content-Type] and [Accept] (the only header
    an operation adds is [X-User-External-ID]), uses GET or POST, and has no
    body when it is a GET. *)
Theorem operations_send_fixed_headers h this call href init :
  In (Fetch href init) (fst (perform h this call)) ->
  assoc (init_headers init) "Authorization" = Some ("Token " ++ cfg_apiToken (config this)) /\
  assoc (init_headers init) "Content-Type" = Some "application/json" /\
  assoc (init_headers init) "Accept" = Some "application/json" /\
  (init_method init = "GET" -> init_body init = None) /\
  (init_method init = "GET" \/ init_method init = "POST").
Proof.
  unfold perform. intros Hin.
  refine (awaits_only_effects (request h this) well_built
            (fun e => match e with
                      | Fetch _ i =>
                          assoc (init_headers i) "Authorization"
                          = Some ("Token " ++ cfg_apiToken (config this)) /\
                          assoc (init_headers i) "Content-Type" = Some "application/json" /\
                          assoc (init_headers i) "Accept" = Some "application/json" /\
                          (init_method i = "GET" -> init_body i = None) /\
                          (init_method i = "GET" \/ init_method i = "POST")
                      | _ => True
                      end)
            (operation h call) (operations_well_built h call) _ (Fetch href init) Hin).
  intros options [| href' init' | |] Hwb Hin'; try exact I.
  rewrite (request_effects_init _ _ _ _ _ Hin'). now apply well_built_init.
Qed.

Lemma operations_send_fixed_headers_witness :
  assoc (init_headers (request_init example_client
           (POST "/bookings/7/cancel/"
              (Some (JObject [("reason", JString "user_request"); ("notes", JString "")]))
              (Some [("X-User-External-ID", "user-1")]))))
        "Authorization"
  = Some ("Token " ++ cfg_apiToken (config example_client)) /\
  assoc (init_headers (request_init example_client
           (POST "/bookings/7/cancel/"
              (Some (JObject [("reason", JString "user_request"); ("notes", JString "")]))
              (Some [("X-User-External-ID", "user-1")]))))
        "Content-Type" = Some "application/json" /\
  assoc (init_headers (request_init example_client
           (POST "/bookings/7/cancel/"
              (Some (JObject [("reason", JString "user_request"); ("notes", JString "")]))
              (Some [("X-User-External-ID", "user-1")]))))
        "Accept" = Some "application/json" /\
  (init_method (request_init example_client
           (POST "/bookings/7/cancel/"
              (Some (JObject [("reason", JString "user_request"); ("notes", JString "")]))
              (Some [("X-User-External-ID", "user-1")]))) = "GET" ->
   init_body (request_init example_client
           (POST "/bookings/7/cancel/"
              (Some (JObject [("reason", JString "user_request"); ("notes", JString "")]))
              (Some [("X-User-External-ID", "user-1")]))) = None) /\
  (init_method (request_init example_client
           (POST "/bookings/7/cancel/"
              (Some (JObject [("reason", JString "user_request"); ("notes", JString "")]))
              (Some [("X-User-External-ID", "user-1")]))) = "GET" \/
   init_method (request_init example_client
           (POST "/bookings/7/cancel/"
              (Some (JObject [("reason", JString "user_request"); ("notes", JString "")]))
              (Some [("X-User-External-ID", "user-1")]))) = "POST").
Proof.
  refine (operations_send_fixed_headers
            (example_host (answers 200 (Normal (JObject []))))
            example_client
            (CancelBooking {| cancel_bookingId := 7; cancel_userExternalId := "user-1";
                              cancel_reason := None; cancel_notes := None |})
            "https://api.example.com/api/v1/bookings/7/cancel/" _ _).
  right. left. reflexivity.
Defined.

Ltac budget :=
  repeat first
    [ apply awaits_at_most_Settle
    | apply awaits_at_most_Await; intros
    | progress cbn [attempt forward]
    | match goal with
      | |- awaits_at_most _ (attempt ?c _) => destruct c
      | |- awaits_at_most _ (match ?c with _ => _ end) => destruct c
      | |- awaits_at_most _ (if ?c then _ else _) => destruct c
      end ].

Lemma getVenue_budget venueId : awaits_at_most 1 (getVenue venueId).
Proof. unfold getVenue. budget. Qed.

Lemma operations_budget h call :
  awaits_at_most (match call with GetVenueBySlug _ => 2 | _ => 1 end) (operation h call).
Proof.
  destruct call; cbn [operation];
    try (unfold registerUser, lookupUser, registerResource, lookupResource, listResources,
           registerVenue, lookupVenue, getVenueWithResources, listVenues,
           getAvailabilityById, getAvailability, createBooking, listBookings,
           createPaymentIntent, cancelBooking, getBooking, lookup_catch;
         budget; fail).
  unfold getVenueBySlug. apply awaits_at_most_Await. intros c.
  destruct c as [response|t]; cbn [attempt]; [|constructor].
  destruct (results <- get response "results" ;; _) as [[venue|]|]; cbn [attempt];
    try constructor.
  destruct (get venue "id"); cbn [attempt]; [apply getVenue_budget|constructor].
Qed.

(** X13: No public operation retries or fans out: it calls [fetch] at most once,
    [getVenueBySlug] (a search, then the venue) at most twice. *)
Theorem operations_fetch_budget h this call :
  (fetches (fst (perform h this call))
   <= match call with GetVenueBySlug _ => 2 | _ => 1 end)%nat.
Proof.
  unfold perform. apply awaits_at_most_fetches.
  - apply operations_budget.
  - intros options. apply request_fetches_le.
Qed.

(** ** [getVenueBySlug] and [listBookings] on unexpected bodies *)

Lemma get_member v key : v <> JNull -> get v key = Normal (member v key).
Proof. destruct v; try reflexivity. congruence. Qed.

(** [find] passes over the items that do not carry the slug. *)
Lemma find_slug_skips before rest slug :
  (forall v, In v before -> v <> JNull /\ member v "slug" <> Some (JString slug)) ->
  find_slug (before ++ rest) slug = find_slug rest slug.
Proof.
  induction before as [|v before IH]; intros H; cbn [app find_slug]; [reflexivity|].
  destruct (H v (or_introl eq_refl)) as [Hnull Hslug].
  rewrite (get_member _ _ Hnull). cbn [bind].
  rewrite IH by (intros; apply H; now right).
  destruct (member v "slug") as [[| | |s| |]|]; try reflexivity.
  destruct (String.eqb_spec s slug) as [->|]; [congruence|reflexivity].
Qed.

Section Venues.

Variable send : RequestOptions -> Async value.

(** X16: When no venue of the search result carries exactly the slug,
    [getVenueBySlug] rejects with a [NotFoundError] naming the slug, after
    the search alone: no venue is fetched. *)
Theorem getVenueBySlug_without_match slug fields items :
  snd (send (GET "/venues/" (Some [("search", slug)]) None)) = Normal (JObject fields) ->
  own fields "results" = Some (JArray items) ->
  (forall v, In v items -> v <> JNull /\ member v "slug" <> Some (JString slug)) ->
  run send (getVenueBySlug slug) =
  (fst (send (GET "/venues/" (Some [("search", slug)]) None)),
   Throw (ThrowSdk (NotFoundError (Some ("Venue with slug '" ++ slug ++ "' not found"))))).
Proof.
  intros Hs Hr Hno. unfold getVenueBySlug. cbn [run].
  destruct (send (GET "/venues/" (Some [("search", slug)]) None)) as [effects c].
  cbn [snd] in Hs. subst c. cbn [attempt get bind fst]. rewrite Hr.
  pose proof (find_slug_skips items [] slug Hno) as Hf.
  rewrite app_nil_r in Hf. rewrite Hf. cbn [find_slug attempt run].
  now rewrite app_nil_r.
Qed.

(** X17: [getVenueBySlug] goes on with the first venue of the search result that
    carries exactly the slug: what it settles to is what the request for
    [/venues/{id}/] of that venue settles to. *)
Theorem getVenueBySlug_first_match slug fields before venue after (id : Z) :
  snd (send (GET "/venues/" (Some [("search", slug)]) None)) = Normal (JObject fields) ->
  own fields "results" = Some (JArray (before ++ venue :: after)) ->
  (forall v, In v before -> v <> JNull /\ member v "slug" <> Some (JString slug)) ->
  member venue "slug" = Some (JString slug) ->
  member venue "id" = Some (JNumber id) ->
  snd (run send (getVenueBySlug slug)) =
  snd (send (GET ("/venues/" ++ Number_toString id ++ "/") None None)).
Proof.
  intros Hs Hr Hno Hslug Hid. unfold getVenueBySlug. rewrite run_Await, Hs.
  cbn [attempt get bind]. rewrite Hr, (find_slug_skips _ _ _ Hno).
  assert (Hv : venue <> JNull) by (intros ->; discriminate).
  cbn [find_slug]. rewrite (get_member _ _ Hv), Hslug. cbn [bind].
  rewrite String.eqb_refl. cbn [attempt]. rewrite (get_member _ _ Hv), Hid.
  cbn [attempt getVenue template String_ forward]. unfold forward.
  rewrite run_Await. reflexivity.
Qed.

(** X18: A search result without a [results] member makes [getVenueBySlug] reject
    with the engine's [TypeError], which is no [MatchEngineError]. *)
Theorem getVenueBySlug_without_results slug response :
  snd (send (GET "/venues/" (Some [("search", slug)]) None)) = Normal response ->
  member response "results" = None ->
  exists m,
    snd (run send (getVenueBySlug slug)) = Throw (ThrowError "TypeError" m) /\
    instanceof (ThrowError "TypeError" m) C_MatchEngineError = false.
Proof.
  intros Hs Hm. unfold getVenueBySlug. rewrite run_Await, Hs. cbn [attempt].
  destruct response; cbn [member] in Hm; cbn [get bind attempt run snd];
    try rewrite Hm; eexists; split; reflexivity.
Qed.

(** X19: What [listBookings] makes of a body that is neither a list nor an
    envelope: [null] makes it reject with the engine's [TypeError]; a
    [results] member that is [null], and a body that is a string, a number or
    a boolean, give the empty list. *)
Theorem listBookings_odd_bodies options response :
  snd (send (listBookings_request options)) = Normal response ->
  (response = JNull ->
   exists m, snd (run send (listBookings options)) = Throw (ThrowError "TypeError" m)) /\
  (member response "results" = Some JNull ->
   snd (run send (listBookings options)) = Normal (JArray [])) /\
  (typeof response <> T_object ->
   snd (run send (listBookings options)) = Normal (JArray [])).
Proof.
  intros Hs. unfold listBookings. rewrite run_Await, Hs. cbn [attempt].
  repeat split.
  - intros ->. eexists. reflexivity.
  - intros Hm. destruct response; try discriminate. cbn [member] in Hm.
    cbn [isArray get attempt]. rewrite Hm. reflexivity.
  - intros Ht. destruct response; try reflexivity; cbn in Ht; congruence.
Qed.

End Venues.

Lemma getVenueBySlug_without_match_witness :
  run (request (example_host (answers 200 (Normal one_venue))) example_client)
      (getVenueBySlug "Centre-Court") =
  (fst (request (example_host (answers 200 (Normal one_venue))) example_client
          (GET "/venues/" (Some [("search", "Centre-Court")]) None)),
   Throw (ThrowSdk (NotFoundError (Some "Venue with slug 'Centre-Court' not found")))).
Proof.
  refine (getVenueBySlug_without_match
            (request (example_host (answers 200 (Normal one_venue))) example_client)
            "Centre-Court" _ _ eq_refl eq_refl _).
  intros v [<-|[]]. split; discriminate.
Defined.

Lemma getVenueBySlug_first_match_witness :
  snd (run (request (example_host (answers 200 (Normal one_venue))) example_client)
         (getVenueBySlug "centre-court")) =
  snd (request (example_host (answers 200 (Normal one_venue))) example_client
         (GET ("/venues/" ++ Number_toString 3 ++ "/") None None)).
Proof.
  refine (getVenueBySlug_first_match
            (request (example_host (answers 200 (Normal one_venue))) example_client)
            "centre-court" _ [] _ [] 3 eq_refl eq_refl _ eq_refl eq_refl).
  intros v [].
Defined.

Lemma getVenueBySlug_without_results_witness :
  exists m,
    snd (run (request (example_host (answers 200 (Normal (JArray [])))) example_client)
           (getVenueBySlug "centre-court")) = Throw (ThrowError "TypeError" m) /\
    instanceof (ThrowError "TypeError" m) C_MatchEngineError = false.
Proof.
  exact (getVenueBySlug_without_results
           (request (example_host (answers 200 (Normal (JArray [])))) example_client)
           "centre-court" (JArray []) eq_refl eq_refl).
Defined.

Lemma listBookings_odd_bodies_witness :
  snd (run (request (example_host (answers 200 (Normal (JObject [("results", JNull)]))))
              example_client)
         (listBookings None)) = Normal (JArray []).
Proof.
  exact (proj1 (proj2 (listBookings_odd_bodies
           (request (example_host (answers 200 (Normal (JObject [("results", JNull)]))))
              example_client)
           None (JObject [("results", JNull)]) eq_refl)) eq_refl).
Defined.

(** ** Query parameters *)

Lemma assoc_add_when cond key text q key' :
  assoc (add_when cond key text q) key' =
  if cond && String.eqb key key' then Some text else assoc q key'.
Proof.
  unfold add_when. destruct cond; cbn [andb]; [|reflexivity].
  destruct (String.eqb_spec key key') as [->|Hne].
  - apply assoc_set_own_same.
  - now apply assoc_set_own_other.
Qed.

(** X20: The query of [listVenues]: a text filter is sent unless it is missing or
    empty, a flag whenever it is given, [false] included, and a page number
    or size unless it is missing or zero; nothing else is sent. *)
Theorem listVenues_query options :
  exists q,
    listVenues options = forward (GET "/venues/" (Some q) None) /\
    assoc q "city"
    = (if nonempty (optional options ven_city) then optional options ven_city else None) /\
    assoc q "venue_type"
    = (if nonempty (optional options ven_venueType)
       then optional options ven_venueType else None) /\
    assoc q "search"
    = (if nonempty (optional options ven_search) then optional options ven_search else None) /\
    assoc q "is_active" = option_map String_bool (optional options ven_isActive) /\
    assoc q "is_featured" = option_map String_bool (optional options ven_isFeatured) /\
    assoc q "page"
    = (if nonzero (optional options ven_page)
       then option_map Number_toString (optional options ven_page) else None) /\
    assoc q "page_size"
    = (if nonzero (optional options ven_pageSize)
       then option_map Number_toString (optional options ven_pageSize) else None) /\
    (forall key,
       ~ In key ["city"; "venue_type"; "search"; "is_active"; "is_featured"; "page";
                 "page_size"] ->
       assoc q key = None).
Proof.
  unfold listVenues. eexists. split; [reflexivity|].
  repeat split; try (rewrite !assoc_add_when; cbn [String.eqb Ascii.eqb Bool.eqb andb assoc];
                     rewrite ?andb_false_r, ?andb_true_r).
  - destruct (optional options ven_city) as [[|]|]; reflexivity.
  - destruct (optional options ven_venueType) as [[|]|]; reflexivity.
  - destruct (optional options ven_search) as [[|]|]; reflexivity.
  - destruct (optional options ven_isActive); reflexivity.
  - destruct (optional options ven_isFeatured); reflexivity.
  - destruct (optional options ven_page); cbn [nonzero option_map]; [|reflexivity].
    destruct (negb _); reflexivity.
  - destruct (optional options ven_pageSize); cbn [nonzero option_map]; [|reflexivity].
    destruct (negb _); reflexivity.
  - intros key Hkey. rewrite !assoc_add_when. cbn [assoc].
    repeat match goal with
           | |- context [String.eqb ?k key] =>
               destruct (String.eqb_spec k key) as [<-|_];
               [exfalso; apply Hkey; cbn; tauto|rewrite ?andb_false_r]
           end.
    reflexivity.
Qed.

(** X21: The query of [listResources]: the venue id unless missing or zero, the
    slug unless missing or empty, either flag whenever given. *)
Theorem listResources_query options :
  exists q,
    listResources options = forward (GET "/resources/" (Some q) None) /\
    assoc q "venue"
    = (if nonzero (optional options res_venueId)
       then option_map Number_toString (optional options res_venueId) else None) /\
    assoc q "venue_slug"
    = (if nonempty (optional options res_venueSlug)
       then optional options res_venueSlug else None) /\
    assoc q "is_active" = option_map String_bool (optional options res_isActive) /\
    assoc q "is_bookable" = option_map String_bool (optional options res_isBookable) /\
    (forall key,
       ~ In key ["venue"; "venue_slug"; "is_active"; "is_bookable"] -> assoc q key = None).
Proof.
  unfold listResources. eexists. split; [reflexivity|].
  repeat split; try (rewrite !assoc_add_when; cbn [String.eqb Ascii.eqb Bool.eqb andb assoc];
                     rewrite ?andb_false_r, ?andb_true_r).
  - destruct (optional options res_venueId); cbn [nonzero option_map]; [|reflexivity].
    destruct (negb _); reflexivity.
  - destruct (optional options res_venueSlug) as [[|]|]; reflexivity.
  - destruct (optional options res_isActive); reflexivity.
  - destruct (optional options res_isBookable); reflexivity.
  - intros key Hkey. rewrite !assoc_add_when. cbn [assoc].
    repeat match goal with
           | |- context [String.eqb ?k key] =>
               destruct (String.eqb_spec k key) as [<-|_];
               [exfalso; apply Hkey; cbn; tauto|rewrite ?andb_false_r]
           end.
    reflexivity.
Qed.

(** ** Date and time texts *)

Lemma all_digits_app a b : all_digits (a ++ b) = all_digits a && all_digits b.
Proof.
  induction a as [|c a IH]; cbn [append all_digits]; [reflexivity|].
  now rewrite IH, andb_assoc.
Qed.

Lemma length_app_string a b :
  String.length (a ++ b) = (String.length a + String.length b)%nat.
Proof. induction a; cbn; congruence. Qed.

Lemma repeat_zero n :
  all_digits (repeat_char "0" n) = true /\ String.length (repeat_char "0" n) = n.
Proof. induction n as [|n [IH1 IH2]]; cbn; [auto|]. rewrite IH1, IH2. auto. Qed.

Lemma pad2_digits s :
  all_digits s = true ->
  all_digits (pad2 s) = true /\ (2 <= String.length (pad2 s))%nat.
Proof.
  intros H. unfold pad2, padStart. rewrite all_digits_app, length_app_string, H.
  destruct (repeat_zero (2 - String.length s)) as [-> ->]. split; [reflexivity|lia].
Qed.

Lemma digits_are_digits s : all_digits (fst (digits s)) = true.
Proof.
  induction s as [|c s IH]; cbn [digits]; [reflexivity|].
  destruct (is_digit c) eqn:E; [|reflexivity].
  destruct (digits s) as [d rest]. cbn [fst all_digits] in *. now rewrite E, IH.
Qed.

Lemma group_or_digits g :
  (forall s, g = Some s -> all_digits s = true) ->
  all_digits (group_or g "0") = true.
Proof.
  intros H. destruct g as [[|c s]|]; try reflexivity. now apply H.
Qed.

(** Whatever the offset text, the fallback writes a sign, at least two
    digits, a colon and at least two digits. *)
Lemma formatOffset_form offsetStr :
  exists sign hours minutes,
    formatOffset offsetStr = sign ++ hours ++ ":" ++ minutes /\
    (sign = "+" \/ sign = "-") /\
    all_digits hours = true /\ (2 <= String.length hours)%nat /\
    all_digits minutes = true /\ (2 <= String.length minutes)%nat.
Proof.
  unfold formatOffset, match_offset.
  destruct (after_GMT offsetStr) as [rest|];
    [|exists "+", "00", "00"; cbn; repeat split; auto].
  remember (match rest with
            | String "+" r => ("+", r)
            | String "-" r => ("-", r)
            | _ => ("", rest)
            end) as split eqn:Hsplit.
  destruct split as [sign rest1].
  assert (Hsign : group_or (Some sign) "+" = "+" \/ group_or (Some sign) "+" = "-").
  { destruct rest as [|[[] [] [] [] [] [] [] []] r]; injection Hsplit as -> _; auto. }
  clear Hsplit. pose proof (digits_are_digits rest1) as Hh.
  destruct (digits rest1) as [hours rest2]. cbn [fst] in Hh.
  remember (match rest2 with
            | String ":" r => match fst (digits r) with
                              | EmptyString => None
                              | m => Some m
                              end
            | _ => None
            end) as minutes eqn:Hmin.
  assert (Hm : forall m, minutes = Some m -> all_digits m = true).
  { intros m ->.
    destruct rest2 as [|[[] [] [] [] [] [] [] []] r]; try discriminate.
    pose proof (digits_are_digits r) as Hr.
    destruct (fst (digits r)); [discriminate|]. injection Hmin as ->. exact Hr. }
  clear Hmin.
  destruct (pad2_digits (group_or (match hours with
                                   | EmptyString => None
                                   | _ => Some hours
                                   end) "0")) as [Hh1 Hh2].
  { apply group_or_digits. intros s Hs. destruct hours; [discriminate|].
    now injection Hs as <-. }
  destruct (pad2_digits (group_or minutes "0") (group_or_digits _ Hm)) as [Hm1 Hm2].
  eexists _, _, _. split; [reflexivity|]. auto.
Qed.

Lemma append_assoc_string a b c : (a ++ b) ++ c = a ++ b ++ c.
Proof. induction a; cbn; congruence. Qed.

Lemma last_char_app a b : b <> "" -> last_char (a ++ b) = last_char b.
Proof.
  intros Hb. induction a as [|c a IH]; cbn [append]; [reflexivity|].
  cbn [last_char]. rewrite IH. destruct (a ++ b) eqn:E; [|reflexivity].
  destruct a; [cbn in E; congruence|discriminate].
Qed.

Lemma last_char_digit s :
  s <> "" -> all_digits s = true -> exists c, last_char s = Some c /\ is_digit c = true.
Proof.
  induction s as [|c s IH]; [congruence|]. intros _ H. cbn [all_digits] in H.
  apply andb_true_iff in H. destruct H as [Hc Hs].
  destruct s as [|c' s]; [exists c; auto|].
  destruct (IH ltac:(discriminate) Hs) as (d & Hd & Hdig). exists d. split; [|exact Hdig].
  exact Hd.
Qed.

(** X24: Whenever the fallback produces a text, the text ends in a numeric UTC
    offset (a sign, at least two digits, a colon, at least two digits): it
    never ends in ["Z"]. *)
Theorem fallback_ends_in_numeric_offset h date timezone s :
  fallbackFormatDateTime h date timezone = Normal s ->
  (exists body sign hours minutes,
     s = body ++ sign ++ hours ++ ":" ++ minutes /\
     (sign = "+" \/ sign = "-") /\
     all_digits hours = true /\ (2 <= String.length hours)%nat /\
     all_digits minutes = true /\ (2 <= String.length minutes)%nat) /\
  endsWith s "Z" = false.
Proof.
  unfold fallbackFormatDateTime.
  destruct (Intl_dateTimeParts h timezone date) as [parts|]; [|discriminate].
  destruct (Intl_offsetParts h timezone date) as [offsetParts|]; [|discriminate].
  cbn [bind]. intros [= Hs]. cbv beta zeta in Hs.
  destruct (formatOffset_form (part_or offsetParts "timeZoneName" "+00:00"))
    as (sign & hours & minutes & Hf & Hsign & Hh & Lh & Hm & Lm).
  rewrite Hf in Hs.
  set (body := part_or parts "year" "00" ++ "-" ++ part_or parts "month" "00" ++ "-"
               ++ part_or parts "day" "00" ++ "T" ++ part_or parts "hour" "00" ++ ":"
               ++ part_or parts "minute" "00" ++ ":" ++ part_or parts "second" "00").
  assert (Heq : s = body ++ sign ++ hours ++ ":" ++ minutes).
  { rewrite <- Hs. unfold body. rewrite !append_assoc_string. reflexivity. }
  clear Hs.
  split; [exists body, sign, hours, minutes; repeat split; assumption|].
  destruct (endsWith s "Z") eqn:E; [|reflexivity]. exfalso.
  destruct (endsWith_char_inv _ _ E) as [p Hp].
  assert (Hne : minutes <> "") by (destruct minutes; [cbn in Lm; lia|discriminate]).
  destruct (last_char_digit minutes Hne Hm) as (c & Hc & Hd).
  assert (Hl : last_char s = Some c).
  { rewrite Heq, <- !append_assoc_string.
    rewrite last_char_app by exact Hne. exact Hc. }
  rewrite Hp, last_char_app in Hl by discriminate. cbn in Hl.
  injection Hl as <-. discriminate.
Qed.

Lemma fallback_ends_in_numeric_offset_witness :
  (exists body sign hours minutes,
     "2025-01-15T10:00:00+01:00" = body ++ sign ++ hours ++ ":" ++ minutes /\
     (sign = "+" \/ sign = "-") /\
     all_digits hours = true /\ (2 <= String.length hours)%nat /\
     all_digits minutes = true /\ (2 <= String.length minutes)%nat) /\
  endsWith "2025-01-15T10:00:00+01:00" "Z" = false.
Proof.
  exact (fallback_ends_in_numeric_offset (example_host silence) 1736931600000
           "Europe/Berlin" "2025-01-15T10:00:00+01:00" eq_refl).
Defined.

(** X25: [luxon] can only add a result: when [formatDateTimeWithTimezone] throws,
    it is the fallback that threw, with that same error; and when [luxon] is
    missing, throws or returns [null], the result is the fallback's. *)
Theorem luxon_failures_fall_back h date timezone :
  (forall t, formatDateTimeWithTimezone h date timezone = Throw t ->
             fallbackFormatDateTime h date timezone = Throw t) /\
  ((forall toISO iso, luxon_toISO h = Some toISO ->
                      toISO date timezone <> Normal (Some iso)) ->
   formatDateTimeWithTimezone h date timezone = fallbackFormatDateTime h date timezone).
Proof.
  unfold formatDateTimeWithTimezone. split.
  - intros t. destruct (luxon_toISO h) as [toISO|]; [|auto].
    destruct (toISO date timezone) as [[iso|]|]; [discriminate|auto|auto].
  - intros H. destruct (luxon_toISO h) as [toISO|]; [|reflexivity].
    specialize (H toISO). destruct (toISO date timezone) as [[iso|]|]; try reflexivity.
    now destruct (H iso eq_refl).
Qed.

(** X22: When the start or the end of a booking cannot be formatted,
    [createBooking] rejects with the formatter's own error and sends
    nothing. *)
Theorem createBooking_unformattable send h options t :
  formatDateTimeWithTimezone h (book_startDatetime options) (book_timezone options)
  = Throw t \/
  ((exists start,
      formatDateTimeWithTimezone h (book_startDatetime options) (book_timezone options)
      = Normal start) /\
   formatDateTimeWithTimezone h (book_endDatetime options) (book_timezone options)
   = Throw t) ->
  run send (createBooking h options) = ([], Throw t).
Proof.
  unfold createBooking. intros [-> | [[start ->] ->]]; reflexivity.
Qed.

Lemma createBooking_unformattable_witness :
  run (request zoneless_host example_client)
      (createBooking zoneless_host
         {| book_resourceExternalId := "court-7";
            book_userExternalId := "user-1";
            book_startDatetime := 1736931600000;
            book_endDatetime := 1736935200000;
            book_timezone := "Mars/Olympus";
            book_participantCount := None;
            book_notes := None |})
  = ([], Throw (ThrowError "RangeError" "Invalid time zone specified")).
Proof.
  exact (createBooking_unformattable (request zoneless_host example_client) zoneless_host
           {| book_resourceExternalId := "court-7";
              book_userExternalId := "user-1";
              book_startDatetime := 1736931600000;
              book_endDatetime := 1736935200000;
              book_timezone := "Mars/Olympus";
              book_participantCount := None;
              book_notes := None |}
           (ThrowError "RangeError" "Invalid time zone specified")
           (or_introl eq_refl)).
Defined.

Lemma pad2_below_100 n :
  0 <= n <= 99 ->
  String.length (pad2 (Number_toString n)) = 2%nat /\
  all_digits (pad2 (Number_toString n)) = true.
Proof.
  intros H. replace n with (Z.of_nat (Z.to_nat n)) by lia.
  assert (Hk : (Z.to_nat n <= 99)%nat) by lia.
  generalize dependent (Z.to_nat n). clear. intros k Hk.
  do 100 (destruct k as [|k]; [vm_compute; auto|]). lia.
Qed.

(** X26: For a date whose local month and day are a calendar's, [formatDate]
    writes the year as it is, without padding, then the month counted from
    one and the day, each as two digits. *)
Theorem formatDate_two_digits h date :
  0 <= getMonth h date <= 11 ->
  1 <= getDate h date <= 31 ->
  exists month day,
    formatDate h date = Number_toString (getFullYear h date) ++ "-" ++ month ++ "-" ++ day /\
    month = pad2 (Number_toString (getMonth h date + 1)) /\
    day = pad2 (Number_toString (getDate h date)) /\
    String.length month = 2%nat /\ all_digits month = true /\
    String.length day = 2%nat /\ all_digits day = true.
Proof.
  intros Hm Hd. unfold formatDate.
  destruct (pad2_below_100 (getMonth h date + 1)) as [Lm Dm]; [lia|].
  destruct (pad2_below_100 (getDate h date)) as [Ld Dd]; [lia|].
  eexists _, _. repeat split; assumption.
Qed.

Lemma formatDate_two_digits_witness :
  exists month day,
    formatDate (example_host silence) 1736931600000
    = Number_toString (getFullYear (example_host silence) 1736931600000)
        ++ "-" ++ month ++ "-" ++ day /\
    month = pad2 (Number_toString (getMonth (example_host silence) 1736931600000 + 1)) /\
    day = pad2 (Number_toString (getDate (example_host silence) 1736931600000)) /\
    String.length month = 2%nat /\ all_digits month = true /\
    String.length day = 2%nat /\ all_digits day = true.
Proof.
  refine (formatDate_two_digits (example_host silence) 1736931600000 _ _);
    vm_compute; split; discriminate.
Defined.

(** ** The configured base address *)

(** X27: A base address with one trailing slash and the same address without it
    configure the same client. *)
Theorem trailing_slash_is_immaterial base token key timeout :
  endsWith base "/" = false ->
  new_MatchEngineClient (mkConfig (base ++ "/") token key timeout)
  = new_MatchEngineClient (mkConfig base token key timeout).
Proof.
  intros H. unfold new_MatchEngineClient, createConfig.
  cbn [baseUrl apiToken stripePublishableKey timeoutMs cfg_baseUrl].
  rewrite endsWith_app, H, slice_drop_last. reflexivity.
Qed.

Lemma trailing_slash_is_immaterial_witness :
  new_MatchEngineClient (mkConfig ("https://api.example.com" ++ "/") "secret" "pk" (Some 5000))
  = new_MatchEngineClient (mkConfig "https://api.example.com" "secret" "pk" (Some 5000)).
Proof.
  exact (trailing_slash_is_immaterial "https://api.example.com" "secret" "pk" (Some 5000)
           eq_refl).
Defined.

(** ** Helpers of the models *)

(** X28: Whatever the status text of a booking, at most one of [isPaid],
    [isPending] and [isCancelled] holds of it. *)
Theorem booking_states_exclude booking :
  (BookingHelpers.isPaid booking = Normal true ->
   BookingHelpers.isPending booking = Normal false /\
   BookingHelpers.isCancelled booking = Normal false) /\
  (BookingHelpers.isPending booking = Normal true ->
   BookingHelpers.isPaid booking = Normal false /\
   BookingHelpers.isCancelled booking = Normal false) /\
  (BookingHelpers.isCancelled booking = Normal true ->
   BookingHelpers.isPaid booking = Normal false /\
   BookingHelpers.isPending booking = Normal false).
Proof.
  unfold BookingHelpers.isPaid, BookingHelpers.isPending, BookingHelpers.isCancelled.
  destruct (get booking "status") as [[[| | |s| |]|]|]; cbn [bind strict_is];
    try (repeat split; discriminate).
  destruct (String.eqb_spec s "paid") as [->|];
    [repeat split; intros; (reflexivity || discriminate)|].
  destruct (String.eqb_spec s "pending") as [->|];
    [repeat split; intros; (reflexivity || discriminate)|].
  repeat split; intros; (reflexivity || discriminate).
Qed.

Lemma bookable_counts r : r <> JNull -> VenueHelpers.bookable r = Normal (resource_counts r).
Proof.
  intros H. unfold VenueHelpers.bookable, resource_counts.
  rewrite !(get_member _ _ H). cbn [bind].
  destruct (truthy_opt (member r "is_bookable")); reflexivity.
Qed.

Lemma filter_bookable_filter items :
  (forall r, In r items -> r <> JNull) ->
  VenueHelpers.filter_bookable items = Normal (filter resource_counts items).
Proof.
  induction items as [|r items IH]; intros H; cbn [VenueHelpers.filter_bookable filter];
    [reflexivity|].
  rewrite (bookable_counts r) by (apply H; now left). cbn [bind].
  rewrite IH by (intros; apply H; now right). cbn [bind].
  destruct (resource_counts r); reflexivity.
Qed.

Lemma filter_bookable_nonnull items out :
  VenueHelpers.filter_bookable items = Normal out -> forall r, In r items -> r <> JNull.
Proof.
  revert out. induction items as [|a items IH]; intros out H r [].
  - subst a. intros ->. discriminate.
  - cbn [VenueHelpers.filter_bookable] in H.
    destruct (VenueHelpers.bookable a); [|discriminate]. cbn [bind] in H.
    destruct (VenueHelpers.filter_bookable items) as [kept|]; [|discriminate].
    now apply (IH kept).
Qed.

(** X29: When [getBookableResources] returns, it returns, in their order, exactly
    the resources of the venue whose [is_bookable] and [is_active] are both
    truthy, and applying it to a venue holding only those changes nothing. *)
Theorem getBookableResources_selects venue items out :
  member venue "resources" = Some (JArray items) ->
  VenueHelpers.getBookableResources venue = Normal (JArray out) ->
  out = filter resource_counts items /\
  (forall r, In r out <-> In r items /\ resource_counts r = true) /\
  VenueHelpers.getBookableResources (JObject [("resources", JArray out)])
  = Normal (JArray out).
Proof.
  intros Hm H. unfold VenueHelpers.getBookableResources in H.
  assert (Hv : venue <> JNull) by (intros ->; discriminate).
  rewrite (get_member _ _ Hv), Hm in H. cbn [bind] in H.
  destruct (VenueHelpers.filter_bookable items) as [kept|] eqn:Hf; [|discriminate].
  injection H as ->.
  pose proof (filter_bookable_nonnull _ _ Hf) as Hnn.
  rewrite (filter_bookable_filter _ Hnn) in Hf. injection Hf as <-.
  split; [reflexivity|]. split; [intros r; apply filter_In|].
  unfold VenueHelpers.getBookableResources. cbn [get own String.eqb Ascii.eqb Bool.eqb bind].
  rewrite filter_bookable_filter.
  - cbn [bind]. f_equal. f_equal.
    clear. induction items as [|r items IH]; cbn [filter]; [reflexivity|].
    destruct (resource_counts r) eqn:E; cbn [filter]; [rewrite E; now f_equal|exact IH].
  - intros r Hr. apply filter_In in Hr. now apply Hnn.
Qed.

Lemma getBookableResources_selects_witness :
  [JObject [("id", JNumber 2); ("is_bookable", JBool true); ("is_active", JBool true)]]
  = filter resource_counts
      [JObject [("id", JNumber 1); ("is_bookable", JBool true); ("is_active", JBool false)];
       JObject [("id", JNumber 2); ("is_bookable", JBool true); ("is_active", JBool true)];
       JObject [("id", JNumber 3); ("is_active", JBool true)]].
Proof.
  exact (proj1 (getBookableResources_selects three_courts _ _ eq_refl eq_refl)).
Defined.

(** X30: A venue without a [resources] list, or with [null] among its resources,
    makes [getBookableResources] throw the engine's [TypeError]. *)
Theorem getBookableResources_throws venue :
  (member venue "resources" = None \/
   exists items, member venue "resources" = Some (JArray items) /\ In JNull items) ->
  exists m, VenueHelpers.getBookableResources venue = Throw (ThrowError "TypeError" m).
Proof.
  intros [Hm | (items & Hm & Hin)]; unfold VenueHelpers.getBookableResources.
  - destruct venue; cbn [member] in Hm; cbn [get bind]; try rewrite Hm;
      eexists; reflexivity.
  - assert (Hv : venue <> JNull) by (intros ->; discriminate).
    rewrite (get_member _ _ Hv), Hm. cbn [bind].
    destruct (VenueHelpers.filter_bookable items) as [kept|t] eqn:Hf.
    + now destruct (filter_bookable_nonnull _ _ Hf JNull Hin).
    + cbn [bind]. clear Hm Hin.
      assert (Ht : exists m, t = ThrowError "TypeError" m).
      { revert t Hf. induction items as [|r items IH]; intros t Hf; [discriminate|].
        cbn [VenueHelpers.filter_bookable] in Hf.
        destruct (VenueHelpers.bookable r) as [keep|t'] eqn:Hb; cbn [bind] in Hf.
        - destruct (VenueHelpers.filter_bookable items) as [kept|t''];
            cbn [bind] in Hf; [discriminate|].
          injection Hf as <-. now apply IH.
        - injection Hf as <-. unfold VenueHelpers.bookable in Hb.
          destruct r; cbn [get bind] in Hb;
            try (destruct (truthy_opt _); discriminate).
          injection Hb as <-. eexists. reflexivity. }
      destruct Ht as [m ->]. eexists. reflexivity.
Qed.

Lemma getBookableResources_throws_witness :
  exists m,
    VenueHelpers.getBookableResources (JObject [("name", JString "Centre")])
    = Throw (ThrowError "TypeError" m).
Proof.
  exact (getBookableResources_throws (JObject [("name", JString "Centre")])
           (or_introl eq_refl)).
Defined.
